(** * aumai-kisanmitra: mandi prices, pest catalogue and farmer assistant

    A shallow embedding of [aumai_kisanmitra/models.py] and
    [aumai_kisanmitra/core.py], followed by the properties the
    specification states about them.

    Conventions of the embedding.
    - A Python [str] is a [string]: the sequence of the bytes of its UTF-8
      encoding.  Equality, the lexicographic order [<=] and the substring
      test [in] of two well-formed texts agree on code points and on UTF-8
      bytes, so the three are modelled on [string] directly.
    - [str.lower] depends on the Unicode tables and is not byte-wise; it is
      kept abstract as the method of the class [PyLower].  Every general
      statement holds for any such function; [ascii_lower], which is what
      [str.lower] does on ASCII text, instantiates it in the examples.
    - A Python [set] of texts is a [gset string].
    - [sorted] and [list.sort] are stable; any stable sort returns the same
      list, and [py_sorted] is the stable insertion sort.
    - A price is a Python [float], an IEEE 754 binary64 number: the
      primitive [float], with its infinities, its signed zeros and NaN. *)

From Stdlib Require Import String Ascii List Bool Arith ZArith Lia Floats.
From Stdlib Require Import Sorting.Sorted Sorting.Permutation.
From stdpp Require Import base decidable list sorting gmap sets strings.

Local Open Scope string_scope.
Local Open Scope nat_scope.

(* ===================================================================== *)
(** * Python built-ins used by the code *)
(* ===================================================================== *)

(** [s in t] on texts: [s] occurs in [t] as a contiguous block. *)
Fixpoint str_in (s t : string) : bool :=
  match t with
  | EmptyString => String.prefix s t
  | String _ t' => String.prefix s t || str_in s t'
  end.

(** Truth value of a text in a condition: the empty text is false. *)
Definition str_truthy (s : string) : bool :=
  match s with
  | EmptyString => false
  | String _ _ => true
  end.

(** [str.lower]. *)
Class PyLower := lower : string → string.

Definition ascii_lower_char (c : ascii) : ascii :=
  let n := N_of_ascii c in
  if ((65 <=? n) && (n <=? 90))%N then ascii_of_N (n + 32) else c.

Fixpoint ascii_lower_str (s : string) : string :=
  match s with
  | EmptyString => EmptyString
  | String c s' => String (ascii_lower_char c) (ascii_lower_str s')
  end.

(** [str.lower] restricted to ASCII text. *)
Definition ascii_lower : PyLower := ascii_lower_str.

#[global] Instance flip_rel_dec {K} (R : relation K) `{!RelDecision R} :
  RelDecision (flip R) := λ x y, decide_rel R y x.

(** The order [R] on keys, read on the elements that carry them. *)
Definition on_key {A K : Type} (key : A → K) (R : relation K) : relation A :=
  λ a b, R (key a) (key b).

Section py_sorted.
Context {A K : Type} (key : A → K) (R : relation K) `{!RelDecision R}.

(** [x] stood before every element of [l] in the input: it goes in front
    of the first element it need not follow, equal keys included. *)
Fixpoint insert_by (x : A) (l : list A) : list A :=
  match l with
  | [] => [x]
  | y :: l' =>
      if decide (R (key x) (key y)) then x :: l else y :: insert_by x l'
  end.

Definition sort_by (l : list A) : list A := foldr insert_by [] l.
End py_sorted.

(** [sorted(l, key=key, reverse=reverse)]: with [reverse] the order of the
    keys is flipped and elements of equal key keep their input order. *)
Definition py_sorted {A K : Type} (key : A → K) (R : relation K)
    `{!RelDecision R} (reverse : bool) (l : list A) : list A :=
  if reverse then sort_by key (flip R) l else sort_by key R l.

(* ===================================================================== *)
(** * models.py *)
(* ===================================================================== *)

Definition AGRICULTURAL_DISCLAIMER : string :=
  "Verify recommendations with local agricultural experts before application.".

Module MandiPrice.
Record t : Type := mk {
  commodity : string;
  market : string;
  state : string;
  min_price : float;
  max_price : float;
  modal_price : float;
  date : string
}.
End MandiPrice.

Module PestInfo.
Record t : Type := mk {
  name : string;
  affected_crops : list string;
  symptoms : list string;
  treatment : list string;
  prevention : list string
}.
End PestInfo.

Module FarmerQuery.
Record t : Type := mk {
  query : string;
  language : string;
  location : option string
}.
End FarmerQuery.

Module FarmerResponse.
Record t : Type := mk {
  answer : string;
  sources : list string;
  language : string;
  disclaimer : string
}.
End FarmerResponse.

(** The error raised when a model is built from values that break a field
    constraint; it lists the fields whose constraint failed. *)
Inductive ValidationError : Type :=
  | InvalidValue (fields : list string).

(** The constraint [ge=0.0] of a field. *)
Definition ge_zero (x : float) : bool := (0 <=? x)%float.

(** Names of the fields, in declaration order, whose [ge=0.0] fails. *)
Definition failed_fields (fields : list (string * float)) : list string :=
  fst <$> List.filter (λ f, negb (ge_zero (snd f))) fields.

(** [MandiPrice(commodity=..., ..., date=...)]: the three price fields
    carry [ge=0.0]; the text fields carry no constraint. *)
Definition MandiPrice_init (commodity market state : string)
    (min_price max_price modal_price : float) (date : string)
    : ValidationError + MandiPrice.t :=
  match failed_fields [("min_price", min_price); ("max_price", max_price);
                       ("modal_price", modal_price)] with
  | [] => inr (MandiPrice.mk commodity market state
                 min_price max_price modal_price date)
  | errs => inl (InvalidValue errs)
  end.

(* ===================================================================== *)
(** * core.py: mandi price tracker *)
(* ===================================================================== *)

Record MandiPriceTracker : Type := { _store : list MandiPrice.t }.

Definition MandiPriceTracker_init : MandiPriceTracker := {| _store := [] |}.

Definition add_price (self : MandiPriceTracker) (price : MandiPrice.t)
    : MandiPriceTracker :=
  {| _store := _store self ++ [price] |}.

Definition all_prices (self : MandiPriceTracker) : list MandiPrice.t :=
  _store self.

Section price_queries.
Context {py_lower : PyLower}.

Definition get_prices (self : MandiPriceTracker) (commodity : string)
    (state : option string) : list MandiPrice.t :=
  let comm_lower := lower commodity in
  let results :=
    filter (λ p, lower (MandiPrice.commodity p) = comm_lower) (_store self) in
  let results :=
    match state with
    | Some s =>
        if str_truthy s then
          let state_lower := lower s in
          filter (λ p, lower (MandiPrice.state p) = state_lower) results
        else results
    | None => results
    end in
  py_sorted MandiPrice.date String.le true results.

Definition price_trend (self : MandiPriceTracker) (commodity market : string)
    : list MandiPrice.t :=
  let comm_lower := lower commodity in
  let mkt_lower := lower market in
  let results :=
    filter (λ p, lower (MandiPrice.commodity p) = comm_lower
                 ∧ lower (MandiPrice.market p) = mkt_lower) (_store self) in
  py_sorted MandiPrice.date String.le false results.
End price_queries.

(** The trackers a program can hold: the empty one, extended by [add_price]
    with records that [MandiPrice_init] accepted. *)
Inductive tracker_built : MandiPriceTracker → Prop :=
  | built_init : tracker_built MandiPriceTracker_init
  | built_add self c m s lo hi md d price :
      tracker_built self →
      MandiPrice_init c m s lo hi md d = inr price →
      tracker_built (add_price self price).

(* ===================================================================== *)
(** * core.py: pest database *)
(* ===================================================================== *)

(** The static pest catalogue. *)
Definition _RAW_PESTS : list PestInfo.t := [
  {| PestInfo.name := "Brown Plant Hopper";
     PestInfo.affected_crops := ["Rice"];
     PestInfo.symptoms := ["yellowing"; "wilting"; "hopperburn"; "lodging"];
     PestInfo.treatment := ["Apply imidacloprid 17.8 SL @ 125 ml/ha";
                            "Drain field for 3-4 days";
                            "Apply BPMC 50 EC"];
     PestInfo.prevention := ["Use resistant varieties";
                             "Avoid excessive nitrogen";
                             "Maintain field drainage"] |};
  {| PestInfo.name := "Aphids";
     PestInfo.affected_crops := ["Wheat";
                                 "Mustard";
                                 "Cotton";
                                 "Okra";
                                 "Groundnut"];
     PestInfo.symptoms := ["curling leaves";
                           "yellowing";
                           "sticky honeydew";
                           "stunted growth";
                           "sooty mould"];
     PestInfo.treatment := ["Spray dimethoate 30 EC @ 500 ml/ha";
                            "Apply imidacloprid 17.8 SL @ 75 ml/ha";
                            "Neem oil spray 5%"];
     PestInfo.prevention := ["Encourage natural predators (ladybird beetles)";
                             "Avoid dense planting";
                             "Remove weeds"] |};
  {| PestInfo.name := "Stem Borer";
     PestInfo.affected_crops := ["Rice"; "Maize"; "Sugarcane"; "Sorghum"];
     PestInfo.symptoms := ["dead heart";
                           "white ear";
                           "borer entry holes";
                           "frass";
                           "stem tunnelling"];
     PestInfo.treatment := ["Apply carbofuran 3G @ 20 kg/ha";
                            "Release Trichogramma parasitoids";
                            "Chlorpyrifos 20 EC"];
     PestInfo.prevention := ["Use light traps";
                             "Destroy stubbles after harvest";
                             "Balanced nitrogen application"] |};
  {| PestInfo.name := "Whitefly";
     PestInfo.affected_crops := ["Cotton";
                                 "Tomato";
                                 "Brinjal";
                                 "Chilli";
                                 "Cucurbits"];
     PestInfo.symptoms := ["yellowing";
                           "silver streaks";
                           "sticky leaves";
                           "sooty mould";
                           "virus transmission"];
     PestInfo.treatment := ["Thiamethoxam 25 WG @ 100 g/ha";
                            "Yellow sticky traps";
                            "Neem seed kernel extract 5%"];
     PestInfo.prevention := ["Intercropping with marigold";
                             "Remove infected plants";
                             "Avoid over-irrigation"] |};
  {| PestInfo.name := "Thrips";
     PestInfo.affected_crops := ["Chilli"; "Cotton"; "Onion"; "Groundnut"];
     PestInfo.symptoms := ["silver streaks on leaves";
                           "upward curling";
                           "scarring";
                           "bronzing"];
     PestInfo.treatment := ["Spinosad 45 SC @ 100 ml/ha";
                            "Fipronil 5 SC @ 600 ml/ha"];
     PestInfo.prevention := ["Blue sticky traps";
                             "Avoid planting near maize";
                             "Reflective mulch"] |};
  {| PestInfo.name := "Red Spider Mite";
     PestInfo.affected_crops := ["Cotton";
                                 "Brinjal";
                                 "Okra";
                                 "Beans";
                                 "Maize"];
     PestInfo.symptoms := ["bronze speckling";
                           "webbing";
                           "leaf drop";
                           "yellowing"];
     PestInfo.treatment := ["Dicofol 18.5 EC @ 1.5 l/ha";
                            "Sulphur 80 WP @ 2.5 kg/ha";
                            "Abamectin 1.8 EC"];
     PestInfo.prevention := ["Overhead irrigation reduces mites";
                             "Avoid dusty conditions";
                             "Predatory mites"] |};
  {| PestInfo.name := "Mealy Bug";
     PestInfo.affected_crops := ["Cotton"; "Grapes"; "Pomegranate"; "Papaya"];
     PestInfo.symptoms := ["white cottony masses";
                           "yellowing";
                           "stunted growth";
                           "sooty mould"];
     PestInfo.treatment := ["Profenofos 50 EC @ 1 l/ha";
                            "Spray ethion 50 EC";
                            "Release Cryptolaemus predators"];
     PestInfo.prevention := ["Destroy crop debris";
                             "Ant management";
                             "Avoid excess nitrogen"] |};
  {| PestInfo.name := "Helicoverpa (Bollworm)";
     PestInfo.affected_crops := ["Cotton";
                                 "Tomato";
                                 "Chickpea";
                                 "Pigeonpea";
                                 "Maize"];
     PestInfo.symptoms := ["bored bolls/pods/fruit";
                           "circular entry holes";
                           "larval frass";
                           "premature boll/pod drop"];
     PestInfo.treatment := ["Spinosad 45 SC @ 150 ml/ha";
                            "Bt spray 750 g/ha";
                            "Emamectin benzoate 5 SG"];
     PestInfo.prevention := ["Pheromone traps (5/ha)";
                             "Use Bt cotton varieties";
                             "Intercrop with sorghum"] |};
  {| PestInfo.name := "Cutworm";
     PestInfo.affected_crops := ["Wheat"; "Maize"; "Vegetables"; "Cotton"];
     PestInfo.symptoms := ["cut seedlings at ground level";
                           "wilting";
                           "night feeding"];
     PestInfo.treatment := ["Chlorpyrifos 20 EC @ 2.5 l/ha soil drench";
                            "Poison bait (bran + chlorpyrifos)"];
     PestInfo.prevention := ["Deep ploughing in summer";
                             "Remove weeds";
                             "Flood irrigation before planting"] |};
  {| PestInfo.name := "Leaf Folder";
     PestInfo.affected_crops := ["Rice"];
     PestInfo.symptoms := ["longitudinal folded leaves";
                           "white leaf streaks";
                           "feeding damage"];
     PestInfo.treatment := ["Chlorpyrifos 20 EC @ 1.5 l/ha";
                            "Monocrotophos 36 WSC @ 750 ml/ha"];
     PestInfo.prevention := ["Balanced fertilisation";
                             "Avoid dense planting";
                             "Light traps"] |};
  {| PestInfo.name := "Jassid (Leafhopper)";
     PestInfo.affected_crops := ["Cotton"; "Groundnut"; "Okra"; "Brinjal"];
     PestInfo.symptoms := ["yellowing from leaf margins";
                           "leaf curl downward";
                           "burning appearance"];
     PestInfo.treatment := ["Imidacloprid 70 WG @ 35 g/ha";
                            "Thiamethoxam 25 WG @ 80 g/ha"];
     PestInfo.prevention := ["Hairy-leaved varieties";
                             "Avoid close planting";
                             "Yellow sticky traps"] |};
  {| PestInfo.name := "Powdery Mildew";
     PestInfo.affected_crops := ["Wheat";
                                 "Grapes";
                                 "Cucurbits";
                                 "Pea";
                                 "Mustard"];
     PestInfo.symptoms := ["white powdery patches";
                           "yellowing below";
                           "premature leaf drop";
                           "stunted growth"];
     PestInfo.treatment := ["Sulphur 80 WP @ 2.5 kg/ha";
                            "Propiconazole 25 EC @ 500 ml/ha";
                            "Hexaconazole 5 EC"];
     PestInfo.prevention := ["Resistant varieties";
                             "Avoid overhead irrigation";
                             "Proper plant spacing"] |};
  {| PestInfo.name := "Blast (Rice Blast)";
     PestInfo.affected_crops := ["Rice"];
     PestInfo.symptoms := ["diamond-shaped lesions";
                           "eye-shaped spots";
                           "neck rot";
                           "panicle blast"];
     PestInfo.treatment := ["Tricyclazole 75 WP @ 300 g/ha";
                            "Isoprothiolane 40 EC @ 750 ml/ha"];
     PestInfo.prevention := ["Balanced nitrogen";
                             "Resistant varieties";
                             "Silicon application"] |};
  {| PestInfo.name := "Late Blight";
     PestInfo.affected_crops := ["Potato"; "Tomato"];
     PestInfo.symptoms := ["water-soaked lesions";
                           "white mouldy growth";
                           "rapid wilting";
                           "brown rotting tubers"];
     PestInfo.treatment := ["Metalaxyl + Mancozeb 72 WP @ 2 kg/ha";
                            "Cymoxanil + Mancozeb"];
     PestInfo.prevention := ["Certified disease-free seed";
                             "Avoid over-irrigation";
                             "Copper fungicides preventively"] |};
  {| PestInfo.name := "Yellow Rust";
     PestInfo.affected_crops := ["Wheat"; "Barley"];
     PestInfo.symptoms := ["yellow stripe pustules";
                           "yellow powder on leaves";
                           "stunted growth"];
     PestInfo.treatment := ["Propiconazole 25 EC @ 500 ml/ha";
                            "Tebuconazole 250 EW @ 750 ml/ha"];
     PestInfo.prevention := ["Resistant varieties";
                             "Early sowing";
                             "Balanced nutrition"] |};
  {| PestInfo.name := "Leaf Blight";
     PestInfo.affected_crops := ["Rice"; "Maize"; "Wheat"];
     PestInfo.symptoms := ["water-soaked lesions turning brown";
                           "leaf blighting";
                           "straw-coloured patches"];
     PestInfo.treatment := ["Validamycin 3 L @ 2 l/ha";
                            "Copper oxychloride 50 WP @ 3 kg/ha"];
     PestInfo.prevention := ["Balanced NPK";
                             "Proper drainage";
                             "Resistant varieties"] |};
  {| PestInfo.name := "Fruit Borer";
     PestInfo.affected_crops := ["Brinjal"; "Tomato"; "Chilli"];
     PestInfo.symptoms := ["bored fruits";
                           "dropping fruits";
                           "larval frass at entry"];
     PestInfo.treatment := ["Emamectin benzoate 5 SG @ 220 g/ha";
                            "Spinosad 45 SC @ 100 ml/ha"];
     PestInfo.prevention := ["Pheromone traps";
                             "Remove damaged fruits";
                             "Inter-cropping"] |};
  {| PestInfo.name := "Nematodes (Root Knot)";
     PestInfo.affected_crops := ["Tomato";
                                 "Brinjal";
                                 "Groundnut";
                                 "Banana";
                                 "Cucurbits"];
     PestInfo.symptoms := ["root galls/knots";
                           "stunting";
                           "yellowing";
                           "poor yield";
                           "wilting"];
     PestInfo.treatment := ["Carbofuran 3G @ 1 kg ai/ha";
                            "Phorate 10G @ 1 kg ai/ha";
                            "Biocontrol with Paecilomyces"];
     PestInfo.prevention := ["Crop rotation with cereals";
                             "Marigold inter-cropping";
                             "Soil solarisation"] |};
  {| PestInfo.name := "Downy Mildew";
     PestInfo.affected_crops := ["Maize";
                                 "Pearl Millet";
                                 "Grapes";
                                 "Cucurbits"];
     PestInfo.symptoms := ["downy white growth on underside";
                           "chlorotic patches";
                           "downcurled leaves"];
     PestInfo.treatment := ["Metalaxyl 8% + Mancozeb 64% WP @ 2.5 kg/ha";
                            "Fosetyl-Al 80 WP"];
     PestInfo.prevention := ["Seed treatment with metalaxyl";
                             "Avoid overhead irrigation";
                             "Resistant varieties"] |};
  {| PestInfo.name := "Bacterial Wilt";
     PestInfo.affected_crops := ["Tomato"; "Brinjal"; "Pepper"; "Potato"];
     PestInfo.symptoms := ["sudden wilting";
                           "vascular browning";
                           "bacterial ooze in water test"];
     PestInfo.treatment := ["No effective chemical cure; remove and destroy infected plants";
                            "Streptomycin sulphate as preventive"];
     PestInfo.prevention := ["Resistant varieties";
                             "Soil sterilisation";
                             "Crop rotation";
                             "Avoid wounding roots"] |};
  {| PestInfo.name := "Caterpillar (Army Worm)";
     PestInfo.affected_crops := ["Maize"; "Sorghum"; "Rice"; "Wheat"];
     PestInfo.symptoms := ["ragged leaf feeding";
                           "defoliation";
                           "windowpane feeding";
                           "frass"];
     PestInfo.treatment := ["Chlorpyrifos 20 EC @ 2.5 l/ha";
                            "Emamectin benzoate 5 SG";
                            "Spinetoram 11.7 SC"];
     PestInfo.prevention := ["Light traps";
                             "Birds on field";
                             "Early planting"] |};
  {| PestInfo.name := "Fall Armyworm";
     PestInfo.affected_crops := ["Maize"; "Sorghum"; "Cotton"; "Rice"];
     PestInfo.symptoms := ["ragged feeding in whorl";
                           "frass like sawdust";
                           "irregular holes in leaves"];
     PestInfo.treatment := ["Emamectin benzoate 5 SG @ 220 g/ha";
                            "Spinetoram 11.7 SC @ 375 ml/ha";
                            "Bt spray"];
     PestInfo.prevention := ["Intercrop with Napier grass";
                             "Pheromone traps";
                             "Avoid late planting"] |};
  {| PestInfo.name := "Diamond Back Moth";
     PestInfo.affected_crops := ["Cabbage";
                                 "Cauliflower";
                                 "Mustard";
                                 "Radish"];
     PestInfo.symptoms := ["window pane feeding";
                           "shot holes";
                           "skeletonised leaves";
                           "greenish larvae on underside"];
     PestInfo.treatment := ["Spinosad 45 SC @ 150 ml/ha";
                            "Emamectin benzoate 5 SG @ 200 g/ha";
                            "Chlorfenapyr 10 SC"];
     PestInfo.prevention := ["Bt crops";
                             "Pheromone traps";
                             "Natural predators"] |};
  {| PestInfo.name := "Pod Borer (Gram)";
     PestInfo.affected_crops := ["Chickpea"; "Pigeonpea"; "Cowpea"];
     PestInfo.symptoms := ["bored pods";
                           "excreta near entry holes";
                           "damaged seeds"];
     PestInfo.treatment := ["Endosulfan 35 EC @ 1.5 l/ha";
                            "Profenofos 50 EC @ 1 l/ha"];
     PestInfo.prevention := ["Intercrop chickpea with coriander";
                             "Pheromone traps";
                             "Early sowing"] |};
  {| PestInfo.name := "Rust (Groundnut)";
     PestInfo.affected_crops := ["Groundnut"];
     PestInfo.symptoms := ["small orange-brown pustules";
                           "yellowing";
                           "defoliation"];
     PestInfo.treatment := ["Mancozeb 75 WP @ 2.5 kg/ha";
                            "Chlorothalonil 75 WP @ 1.5 kg/ha"];
     PestInfo.prevention := ["Resistant varieties";
                             "Seed treatment with thiram";
                             "Early sowing"] |};
  {| PestInfo.name := "Collar Rot";
     PestInfo.affected_crops := ["Groundnut"; "Chickpea"; "Sunflower"];
     PestInfo.symptoms := ["rotting at collar region";
                           "dark brown lesion";
                           "plant collapse"];
     PestInfo.treatment := ["Soil drench with carbendazim 0.1%";
                            "Thiram seed treatment"];
     PestInfo.prevention := ["Seed treatment";
                             "Avoid water-logged conditions";
                             "Crop rotation"] |};
  {| PestInfo.name := "White Grub";
     PestInfo.affected_crops := ["Sugarcane"; "Groundnut"; "Maize"; "Potato"];
     PestInfo.symptoms := ["plants pulled out easily";
                           "severed roots";
                           "yellowing";
                           "wilting"];
     PestInfo.treatment := ["Chlorpyrifos 20 EC soil incorporation";
                            "Imidacloprid 70 WS seed treatment"];
     PestInfo.prevention := ["Summer ploughing to expose grubs";
                             "Light traps for adults";
                             "Neem cake application"] |};
  {| PestInfo.name := "Scales";
     PestInfo.affected_crops := ["Mango"; "Citrus"; "Coconut"; "Grapes"];
     PestInfo.symptoms := ["encrusted bark/leaves";
                           "yellowing";
                           "sooty mould";
                           "branch die-back"];
     PestInfo.treatment := ["DNOC 40 EC @ 1.5 l/ha in water";
                            "Machine oil emulsion spray";
                            "Dimethoate 30 EC"];
     PestInfo.prevention := ["Prune infested branches";
                             "Encourage natural predators";
                             "Ant management"] |};
  {| PestInfo.name := "Mango Hopper";
     PestInfo.affected_crops := ["Mango"];
     PestInfo.symptoms := ["yellowing and drying of inflorescences";
                           "honeydew secretion";
                           "sooty mould"];
     PestInfo.treatment := ["Imidacloprid 17.8 SL @ 0.5 ml/l water";
                            "Carbaryl 50 WP @ 2 g/l water"];
     PestInfo.prevention := ["Prune dense canopy";
                             "Remove weeds";
                             "Spray at panicle emergence"] |};
  {| PestInfo.name := "Coconut Mite (Eriophyid)";
     PestInfo.affected_crops := ["Coconut"];
     PestInfo.symptoms := ["triangular brown patches on husk";
                           "scarring";
                           "stunted nut"];
     PestInfo.treatment := ["Wettable sulphur 80 WP @ 2 g/l water";
                            "Dicofol 18.5 EC"];
     PestInfo.prevention := ["Avoid water stress";
                             "Remove dried leaves";
                             "Summer spraying"] |}
].

Record PestDatabase : Type := { _pests : list PestInfo.t }.

Definition PestDatabase_init : PestDatabase := {| _pests := _RAW_PESTS |}.

Definition all_pests (self : PestDatabase) : list PestInfo.t := _pests self.

(** [result] ranks the records of [pests] by [score]: it holds the records
    of positive score, never lets the score increase along the list, and
    lists the records of any one score in the order of [pests]. *)
Definition ranked_by (score : PestInfo.t → nat)
    (pests result : list PestInfo.t) : Prop :=
  (∀ p, p ∈ result ↔ p ∈ pests ∧ 0 < score p)
  ∧ StronglySorted (λ a b, score b ≤ score a) result
  ∧ (∀ k, 0 < k →
          filter (λ p, score p = k) result = filter (λ p, score p = k) pests).

Section pest_queries.
Context {py_lower : PyLower}.

(** [{s.lower() for s in l}]. *)
Definition lower_set (l : list string) : gset string :=
  list_to_set (lower <$> l).

(** [any(s in ps for ps in pest_symptoms_lower)]. *)
Definition any_contains (s : string) (pest_symptoms_lower : gset string)
    : Prop :=
  set_Exists (λ ps, str_in s ps = true) pest_symptoms_lower.

(** The [overlap] computed in the body of the loop of [identify]. *)
Definition overlap_of (symptoms_lower : gset string) (pest : PestInfo.t)
    : nat :=
  let pest_symptoms_lower := lower_set (PestInfo.symptoms pest) in
  size (filter (λ s, any_contains s pest_symptoms_lower) symptoms_lower).

(** One turn of the loop of [identify]. *)
Definition identify_step (symptoms_lower : gset string)
    (scored : list (nat * PestInfo.t)) (pest : PestInfo.t)
    : list (nat * PestInfo.t) :=
  let overlap := overlap_of symptoms_lower pest in
  if decide (0 < overlap) then scored ++ [(overlap, pest)] else scored.

Definition identify (self : PestDatabase) (symptoms : list string)
    : list PestInfo.t :=
  let symptoms_lower := lower_set symptoms in
  let scored := foldl (identify_step symptoms_lower) [] (_pests self) in
  let scored := py_sorted fst le true scored in
  snd <$> scored.

Definition by_crop (self : PestDatabase) (crop_name : string)
    : list PestInfo.t :=
  let crop_lower := lower crop_name in
  filter (λ p, Exists (λ c, lower c = crop_lower) (PestInfo.affected_crops p))
         (_pests self).

(** The score in the words of the specification: every observed symptom
    counts, a repeated one as often as it is given. *)
Definition spec_overlap (symptoms : list string) (pest : PestInfo.t) : nat :=
  length (filter (λ s, Exists (λ ps, str_in (lower s) (lower ps) = true)
                              (PestInfo.symptoms pest)) symptoms).

(** The score the code computes, on lists: repeated observed symptoms
    count once. *)
Definition distinct_overlap (symptoms : list string) (pest : PestInfo.t)
    : nat :=
  length (filter (λ s, Exists (λ ps, str_in s (lower ps) = true)
                              (PestInfo.symptoms pest))
                 (remove_dups (lower <$> symptoms))).

(** [identify] ranks the catalogue by [score]: [score] is the overlap the
    loop computes for each record, and the result is [ranked_by] it. *)
Definition identify_ranks_by (score : list string → PestInfo.t → nat)
    (self : PestDatabase) (symptoms : list string) : Prop :=
  (∀ pest, overlap_of (lower_set symptoms) pest = score symptoms pest)
  ∧ ranked_by (score symptoms) (_pests self) (identify self symptoms).
End pest_queries.

(* ===================================================================== *)
(** * core.py: farmer assistant *)
(* ===================================================================== *)

(** The rules of the assistant: keywords, answer, sources. *)
Definition _KEYWORD_RESPONSES : list (list string * string * list string) := [
  (["price"; "mandi"; "rate"; "sell"; "market"],
   "Mandi prices vary by location and date. Use the 'prices' command "
   +:+ "or API to fetch current prices for your commodity and state. "
   +:+ "Agmarknet (agmarknet.gov.in) publishes daily mandi arrivals and "
   +:+ "prices across India.",
   ["Agmarknet (agmarknet.gov.in)"; "eNAM (enam.gov.in)"]);
  (["pest"; "insect"; "bug"; "disease"; "fungus"; "infection"],
   "Identify the pest or disease by its visible symptoms. Use the "
   +:+ "'pest' command with symptom keywords to get matching pests and "
   +:+ "treatments. Always consult your local Krishi Vigyan Kendra (KVK) "
   +:+ "for confirmation.",
   ["ICAR Pest Management"; "Krishi Vigyan Kendra network"]);
  (["fertilizer"; "urea"; "dap"; "npk"; "manure"; "compost"],
   "Fertilizer requirements depend on soil test results. Get a soil "
   +:+ "health card from your state agriculture department. Base "
   +:+ "fertilizer application on NPK soil test recommendations. ICAR "
   +:+ "recommends integrated nutrient management combining inorganic and "
   +:+ "organic sources.",
   ["Soil Health Card scheme (soilhealth.dac.gov.in)";
    "ICAR nutrient management guidelines"]);
  (["irrigation"; "water"; "drip"; "sprinkler"; "rain"],
   "Irrigation scheduling should be based on crop stage and soil "
   +:+ "moisture. Drip irrigation can save 40-50% water compared to flood "
   +:+ "irrigation. PM Krishi Sinchayee Yojana provides subsidies for "
   +:+ "micro-irrigation systems.",
   ["PM Krishi Sinchayee Yojana"; "ICAR crop water requirement data"]);
  (["seed"; "variety"; "sow"; "hybrid"; "certified"],
   "Use certified seeds from authorised dealers to ensure germination "
   +:+ "rates and disease resistance. State seed corporations and ICAR "
   +:+ "release improved varieties. Consult your block agriculture officer "
   +:+ "for variety recommendations suited to your region.",
   ["National Seeds Corporation (seedsindia.gov.in)"; "ICAR variety releases"]);
  (["weather"; "rain"; "flood"; "drought"; "forecast"],
   "Monitor IMD weather forecasts at mausam.imd.gov.in. Agromet "
   +:+ "advisories are issued every Tuesday and Friday for all districts. "
   +:+ "Subscribe to SMS alerts from your state agriculture department.",
   ["IMD Agromet Advisory (agromet.imd.gov.in)"; "Kisan Suvidha app"]);
  (["loan"; "credit"; "kcc"; "finance"; "money"],
   "Kisan Credit Card (KCC) provides short-term credit at 7% interest "
   +:+ "(4% with prompt repayment). Apply through your nearest bank or "
   +:+ "primary agriculture credit society. PM Kisan scheme provides Rs "
   +:+ "6000 per year in three instalments.",
   ["Kisan Credit Card (RBI guidelines)"; "PM-KISAN (pmkisan.gov.in)"]);
  (["insurance"; "fasal bima"; "pradhan mantri"],
   "Pradhan Mantri Fasal Bima Yojana (PMFBY) covers crop loss due to "
   +:+ "natural calamities at very low premium rates (2% for kharif, 1.5% "
   +:+ "for rabi). Enrol through banks or Common Service Centres before "
   +:+ "the cutoff date.",
   ["PMFBY (pmfby.gov.in)"; "Krishi Rakshak portal"]);
  (["msp"; "minimum support price"; "procurement"],
   "The government announces MSP for 23 kharif and rabi crops. "
   +:+ "Procurement happens through FCI, NAFED, and state agencies. "
   +:+ "Register on eMitra or msprice portals for selling at MSP centres. "
   +:+ "Check latest MSP at agricoop.gov.in.",
   ["Commission for Agricultural Costs & Prices (cacp.gov.in)";
    "FCI (fci.gov.in)"])
].

Definition default_answer : string :=
  "I can help with crop prices, pest identification, fertilizers, irrigation,"
  +:+ " seeds, weather, loans, insurance, and MSP. Please describe your query in more"
  +:+ " detail or use specific commands for prices and pest identification.".

Definition default_sources : list string :=
  ["Kisan Call Centre (1800-180-1551)"; "Kisan Suvidha App"].

(** [sum(1 for kw in keywords if kw in query_lower)]. *)
Definition keyword_score (keywords : list string) (query_lower : string) : nat :=
  length (filter (λ kw, str_in kw query_lower = true) keywords).

(** One turn of the loop of [respond] on the state
    [(best_score, best_answer, best_sources)]. *)
Definition respond_step (query_lower : string)
    (best : nat * string * list string)
    (rule : list string * string * list string)
    : nat * string * list string :=
  let '(best_score, best_answer, best_sources) := best in
  let '(keywords, answer, sources) := rule in
  let score := keyword_score keywords query_lower in
  if decide (best_score < score) then (score, answer, sources) else best.

(** The loop of [respond] over a rule table. *)
Definition best_match (rules : list (list string * string * list string))
    (query_lower : string) : nat * string * list string :=
  foldl (respond_step query_lower) (0, default_answer, default_sources) rules.

(** The sentence appended for a location. *)
Definition location_sentence (location : string) : string :=
  " For location-specific advice in " +:+ location +:+ ", contact your"
  +:+ " local Block Agriculture Officer or Krishi Vigyan Kendra.".

(** What the location of a query adds to the answer: nothing when it is
    absent or empty. *)
Definition location_suffix (location : option string) : string :=
  match location with
  | Some l => if str_truthy l then location_sentence l else ""
  | None => ""
  end.

(** Rule [i] of [rules] is the first of the highest score for a lowercased
    query, and that score is positive. *)
Definition first_best (rules : list (list string * string * list string))
    (query_lower : string) (i : nat)
    (rule : list string * string * list string) : Prop :=
  rules !! i = Some rule
  ∧ 0 < keyword_score rule.1.1 query_lower
  ∧ (∀ j r, j < i → rules !! j = Some r →
            keyword_score r.1.1 query_lower
            < keyword_score rule.1.1 query_lower)
  ∧ (∀ j r, i < j → rules !! j = Some r →
            keyword_score r.1.1 query_lower
            ≤ keyword_score rule.1.1 query_lower).

Section assistant.
Context {py_lower : PyLower}.

Definition respond (query : FarmerQuery.t) : FarmerResponse.t :=
  let query_lower := lower (FarmerQuery.query query) in
  let '(_, best_answer, best_sources) :=
    best_match _KEYWORD_RESPONSES query_lower in
  let best_answer :=
    match FarmerQuery.location query with
    | Some location =>
        if str_truthy location
        then best_answer +:+ location_sentence location
        else best_answer
    | None => best_answer
    end in
  {| FarmerResponse.answer := best_answer;
     FarmerResponse.sources := best_sources;
     FarmerResponse.language := FarmerQuery.language query;
     FarmerResponse.disclaimer := AGRICULTURAL_DISCLAIMER |}.
End assistant.

(** Score of a rule of the table for a query. *)
Definition rule_score {py_lower : PyLower} (query : FarmerQuery.t)
    (rule : list string * string * list string) : nat :=
  keyword_score (rule.1.1) (lower (FarmerQuery.query query)).

(* ===================================================================== *)
(** * cli.py *)
(* ===================================================================== *)

(** The line feed of the messages. *)
Definition nl : string := String "010" "".

Section cli.
Context {py_lower : PyLower}.

(** The command [ask]: the messages it passes to [click.echo], in order. *)
Definition ask (query : string) (location : option string)
    (language : string) : list string :=
  let farmer_query := FarmerQuery.mk query language location in
  let response := respond farmer_query in
  [nl +:+ "ADVISORY RESPONSE:"; FarmerResponse.answer response]
  ++ match FarmerResponse.sources response with
     | [] => []
     | sources =>
         (nl +:+ "Sources:") :: ((λ source, "  - " +:+ source) <$> sources)
     end
  ++ [nl +:+ AGRICULTURAL_DISCLAIMER +:+ nl].

(** The command [pest], from the parsed [symptom_list] on: the list
    [results] it goes on to print. *)
Definition pest_results (symptom_list : list string) (crop : option string)
    : list PestInfo.t :=
  let db := PestDatabase_init in
  match crop with
  | Some c =>
      if str_truthy c then
        let candidates := by_crop db c in
        let candidate_names : gset string :=
          list_to_set (PestInfo.name <$> candidates) in
        let results :=
          filter (λ p, PestInfo.name p ∈ candidate_names)
                 (identify db symptom_list) in
        match results with
        | [] => candidates
        | _ => results
        end
      else identify db symptom_list
  | None => identify db symptom_list
  end.

(** The records the command [pest] prints in full: [results[:5]]. *)
Definition pest_shown (symptom_list : list string) (crop : option string)
    : list PestInfo.t :=
  take 5 (pest_results symptom_list crop).
End cli.

(* ===================================================================== *)
(** * Sample data *)
(* ===================================================================== *)

(** The tracker of the test suite: three rice records and a wheat record. *)
Definition loaded_tracker : MandiPriceTracker :=
  let tracker := MandiPriceTracker_init in
  let tracker := add_price tracker
    (MandiPrice.mk "rice" "Azadpur" "Delhi" 1800 2200 2000 "2026-02-25") in
  let tracker := add_price tracker
    (MandiPrice.mk "rice" "Lucknow" "UP" 1750 2100 1950 "2026-02-26") in
  let tracker := add_price tracker
    (MandiPrice.mk "rice" "Patna" "Bihar" 1700 2050 1900 "2026-02-24") in
  let tracker := add_price tracker
    (MandiPrice.mk "wheat" "Azadpur" "Delhi" 2000 2350 2150 "2026-02-26") in
  tracker.

(** A query that two rules score alike: "rain" is a keyword of the
    irrigation rule and of the weather rule. *)
Definition rain_query : FarmerQuery.t :=
  FarmerQuery.mk "Will RAIN help my crop?" "en" None.

(** The irrigation rule, fourth of the table. *)
Definition irrigation_rule : list string * string * list string :=
  (["irrigation"; "water"; "drip"; "sprinkler"; "rain"],
   "Irrigation scheduling should be based on crop stage and soil "
   +:+ "moisture. Drip irrigation can save 40-50% water compared to flood "
   +:+ "irrigation. PM Krishi Sinchayee Yojana provides subsidies for "
   +:+ "micro-irrigation systems.",
   ["PM Krishi Sinchayee Yojana"; "ICAR crop water requirement data"]).

(** A query with a location, from the test suite. *)
Definition nashik_query : FarmerQuery.t :=
  FarmerQuery.mk "What fertilizer should I use?" "en" (Some "Nashik").

(** A query no rule matches, from the test suite, with a location. *)
Definition unknown_query : FarmerQuery.t :=
  FarmerQuery.mk "asdfghjkl qwerty zxcv" "hi" (Some "Pune").

(** Observed symptoms with one of them given twice. *)
Definition repeated_symptoms : list string :=
  ["night feeding"; "night feeding"; "yellowing"].

(** A record of the test suite. *)
Definition sample_price : MandiPrice.t :=
  MandiPrice.mk "rice" "Azadpur" "Delhi" 1800 2200 2000 "2026-02-26".

(** The tracker of the trend test: one market, added newest first. *)
Definition trend_tracker : MandiPriceTracker :=
  let tracker := MandiPriceTracker_init in
  let tracker := add_price tracker
    (MandiPrice.mk "wheat" "Azadpur" "Delhi" 2100 2400 2250 "2026-02-26") in
  let tracker := add_price tracker
    (MandiPrice.mk "wheat" "Azadpur" "Delhi" 2050 2350 2200 "2026-02-24") in
  let tracker := add_price tracker
    (MandiPrice.mk "wheat" "Azadpur" "Delhi" 1980 2280 2130 "2026-02-22") in
  tracker.

(** The first record of the catalogue. *)
Definition brown_plant_hopper : PestInfo.t :=
  {| PestInfo.name := "Brown Plant Hopper";
     PestInfo.affected_crops := ["Rice"];
     PestInfo.symptoms := ["yellowing"; "wilting"; "hopperburn"; "lodging"];
     PestInfo.treatment := ["Apply imidacloprid 17.8 SL @ 125 ml/ha";
                            "Drain field for 3-4 days";
                            "Apply BPMC 50 EC"];
     PestInfo.prevention := ["Use resistant varieties";
                             "Avoid excessive nitrogen";
                             "Maintain field drainage"] |}.

(** The query of the test suite with no text. *)
Definition empty_query : FarmerQuery.t := FarmerQuery.mk "" "en" None.

(* ===================================================================== *)
(** * Facts about the built-ins *)
(* ===================================================================== *)

Section str_facts.
Implicit Types s t u : string.

Lemma str_truthy_true s : str_truthy s = true ↔ s ≠ "".
Proof. destruct s; simpl; split; congruence. Qed.

Lemma str_truthy_false s : str_truthy s = false ↔ s = "".
Proof. destruct s; simpl; split; congruence. Qed.

Lemma prefix_app s t : String.prefix s (s +:+ t) = true.
Proof.
  induction s as [|c s IH]; simpl.
  - by destruct t.
  - destruct (ascii_dec c c); [exact IH|congruence].
Qed.

Lemma str_in_prefix s t : String.prefix s t = true → str_in s t = true.
Proof. destruct t; simpl; [done|]. intros ->. done. Qed.

Lemma str_in_app_r s t u : str_in s u = true → str_in s (t +:+ u) = true.
Proof.
  intros Hu. induction t as [|c t IH]; simpl; [done|].
  rewrite IH. apply orb_true_r.
Qed.

(** A text occurs in every text built around it. *)
Lemma str_in_middle s t u : str_in s (t +:+ s +:+ u) = true.
Proof. apply str_in_app_r, str_in_prefix, prefix_app. Qed.

Lemma app_nonempty s t : s ≠ "" → s +:+ t ≠ "".
Proof. by destruct s. Qed.
End str_facts.

Section sort_facts.
Context {A K : Type} (key : A → K) (R : relation K) `{!RelDecision R}.
Implicit Types (x : A) (l : list A).

Local Abbreviation on_key := (on_key key R).

Lemma insert_by_Permutation x l : insert_by key R x l ≡ₚ x :: l.
Proof.
  induction l as [|y l IH]; simpl; [done|].
  case_decide; [done|]. rewrite IH. apply Permutation_swap.
Qed.

Lemma sort_by_Permutation l : sort_by key R l ≡ₚ l.
Proof.
  induction l as [|x l IH]; simpl; [done|].
  by rewrite insert_by_Permutation, IH.
Qed.

Lemma elem_of_sort_by x l : x ∈ sort_by key R l ↔ x ∈ l.
Proof. by rewrite sort_by_Permutation. Qed.

Lemma sort_by_nil_inv l : sort_by key R l = [] → l = [].
Proof.
  intros E. apply Permutation_nil_r. by rewrite <-E, sort_by_Permutation.
Qed.

Lemma HdRel_insert_by `{!Total R} a x l :
  on_key a x → HdRel on_key a l → HdRel on_key a (insert_by key R x l).
Proof.
  intros Hax Hl. destruct l as [|y l]; simpl; [by constructor|].
  case_decide; constructor; [done|]. by inversion Hl.
Qed.

Lemma Sorted_insert_by `{!Total R} x l :
  Sorted on_key l → Sorted on_key (insert_by key R x l).
Proof.
  induction 1 as [|y l Hl IH Hy]; simpl; [by repeat constructor|].
  case_decide as Hxy.
  - by repeat constructor.
  - constructor; [done|]. apply HdRel_insert_by; [|done].
    unfold on_key. by destruct (total R (key x) (key y)).
Qed.

Lemma Sorted_sort_by `{!Total R} l : Sorted on_key (sort_by key R l).
Proof.
  induction l; simpl; [constructor|]. by apply Sorted_insert_by.
Qed.

Lemma StronglySorted_sort_by `{!Total R, !Transitive R} l :
  StronglySorted on_key (sort_by key R l).
Proof.
  apply Sorted_StronglySorted; [|apply Sorted_sort_by].
  intros a b c. unfold on_key. apply transitivity.
Qed.

(** Stability: the elements of any one key keep their input order. *)
Lemma insert_by_stable `{!Reflexive R, !EqDecision K} k x l :
  filter (λ a, key a = k) (insert_by key R x l)
  = filter (λ a, key a = k) (x :: l).
Proof.
  induction l as [|y l IH]; simpl; [done|].
  case_decide as Hxy; [done|].
  rewrite (filter_cons _ y), IH, !filter_cons.
  destruct (decide (key y = k)) as [Hy|Hy]; [|done].
  destruct (decide (key x = k)) as [Hx|Hx]; [|done].
  destruct Hxy. rewrite Hx, Hy. done.
Qed.

Lemma sort_by_stable `{!Reflexive R, !EqDecision K} k l :
  filter (λ a, key a = k) (sort_by key R l) = filter (λ a, key a = k) l.
Proof.
  induction l as [|x l IH]; simpl; [done|].
  by rewrite insert_by_stable, !filter_cons, IH.
Qed.
End sort_facts.

#[global] Instance flip_total {K} (R : relation K) `{!Total R} : Total (flip R).
Proof. intros a b. destruct (total R a b); [right|left]; done. Qed.

Section py_sorted_facts.
Context {A K : Type} (key : A → K) (R : relation K) `{!RelDecision R}.
Context `{!Total R, !Transitive R}.
Implicit Types (x : A) (l : list A).

Lemma py_sorted_Permutation reverse l : py_sorted key R reverse l ≡ₚ l.
Proof. destruct reverse; apply sort_by_Permutation. Qed.

Lemma elem_of_py_sorted reverse x l : x ∈ py_sorted key R reverse l ↔ x ∈ l.
Proof. by rewrite py_sorted_Permutation. Qed.

Lemma py_sorted_ascending l :
  StronglySorted (on_key key R) (py_sorted key R false l).
Proof. apply StronglySorted_sort_by; apply _. Qed.

Lemma py_sorted_descending l :
  StronglySorted (on_key key (flip R)) (py_sorted key R true l).
Proof.
  apply StronglySorted_sort_by; apply _.
Qed.

Lemma py_sorted_stable `{!EqDecision K} reverse k l :
  filter (λ a, key a = k) (py_sorted key R reverse l)
  = filter (λ a, key a = k) l.
Proof.
  assert (Reflexive R) by (intros a; by destruct (total R a a)).
  destruct reverse; apply sort_by_stable; done.
Qed.
End py_sorted_facts.

(* ===================================================================== *)
(** * Mandi price tracker *)
(* ===================================================================== *)

Section price_facts.
Context {py_lower : PyLower}.
Implicit Types (self : MandiPriceTracker) (p : MandiPrice.t).
Implicit Types (c m s : string) (st : option string).

(** Membership in the result of [get_prices], argument by argument. *)
Lemma elem_of_get_prices self c st p :
  p ∈ get_prices self c st ↔
    p ∈ _store self
    ∧ lower (MandiPrice.commodity p) = lower c
    ∧ match st with
      | Some s => s ≠ "" → lower (MandiPrice.state p) = lower s
      | None => True
      end.
Proof.
  unfold get_prices. rewrite elem_of_py_sorted by apply _.
  destruct st as [s|]; [destruct (str_truthy s) eqn:Hs|].
  - apply str_truthy_true in Hs.
    rewrite !list_elem_of_filter. intuition congruence.
  - apply str_truthy_false in Hs.
    rewrite list_elem_of_filter. intuition congruence.
  - rewrite list_elem_of_filter. intuition congruence.
Qed.

Lemma elem_of_price_trend self c m p :
  p ∈ price_trend self c m ↔
    p ∈ _store self
    ∧ lower (MandiPrice.commodity p) = lower c
    ∧ lower (MandiPrice.market p) = lower m.
Proof.
  unfold price_trend. rewrite elem_of_py_sorted by apply _.
  rewrite list_elem_of_filter. intuition congruence.
Qed.

Lemma filter_nil_iff {A} (P : A → Prop) `{!∀ x, Decision (P x)} (l : list A) :
  filter P l = [] ↔ ∀ x, x ∈ l → ¬ P x.
Proof.
  split.
  - intros E x Hx HP. by eapply filter_nil_not_elem_of.
  - intros HP. induction l as [|y l IH]; [done|].
    rewrite filter_cons_False by (apply HP; left).
    apply IH. intros x Hx. apply HP. by right.
Qed.

(** C4.  The records returned by [get_prices] carry dates that never
    increase along the list (newest first), and the records returned by
    [price_trend] carry dates that never decrease (oldest first), for
    every tracker and every argument. *)
Theorem price_queries_date_order self c st m :
  StronglySorted
    (λ a b, (MandiPrice.date b ≤ MandiPrice.date a)%string)
    (get_prices self c st)
  ∧ StronglySorted
    (λ a b, (MandiPrice.date a ≤ MandiPrice.date b)%string)
    (price_trend self c m).
Proof.
  split.
  - apply (py_sorted_descending MandiPrice.date String.le).
  - apply (py_sorted_ascending MandiPrice.date String.le).
Qed.

(** C5.  For a non-empty state [s], the records of [get_prices c s] are
    the records of [get_prices c] whose state is [s] up to case; a record
    is returned for [c] exactly when it is stored and its commodity is
    [c] up to case; and two spellings of a commodity that differ only in
    case give the same result. *)
Theorem get_prices_state_filter self c s :
  s ≠ "" →
  (∀ p, p ∈ get_prices self c (Some s) ↔
        p ∈ get_prices self c None
        ∧ lower (MandiPrice.state p) = lower s)
  ∧ (∀ p, p ∈ get_prices self c None ↔
          p ∈ _store self ∧ lower (MandiPrice.commodity p) = lower c)
  ∧ (∀ c' st, lower c' = lower c →
              get_prices self c' st = get_prices self c st).
Proof.
  intros Hs. split_and!.
  - intros p. rewrite !elem_of_get_prices. intuition.
  - intros p. rewrite elem_of_get_prices. intuition.
  - intros c' st Hc. unfold get_prices. by rewrite Hc.
Qed.

(** C10.  An empty state argument is no state argument: [get_prices c ""]
    is [get_prices c], whatever the tracker holds; it returns the stored
    records of commodity [c] whatever their state, and does not select
    the records whose state is empty. *)
Theorem get_prices_empty_state self c :
  get_prices self c (Some "") = get_prices self c None
  ∧ (∀ p, p ∈ get_prices self c (Some "") ↔
          p ∈ _store self ∧ lower (MandiPrice.commodity p) = lower c).
Proof.
  split; [reflexivity|].
  intros p. rewrite elem_of_get_prices. intuition.
Qed.

(** A value fails [ge=0.0] when it is negative or not a number: every
    comparison with NaN is false. *)
Lemma ge_zero_false (x : float) :
  ge_zero x = false ↔ (x <? 0)%float = true ∨ PrimFloat.is_nan x = true.
Proof.
  unfold ge_zero, PrimFloat.is_nan.
  rewrite FloatAxioms.leb_spec, FloatAxioms.ltb_spec, FloatAxioms.eqb_spec.
  change (Prim2SF 0) with (S754_zero false).
  destruct (Prim2SF x) as [s|s| |s m e]; try destruct s;
    unfold SFleb, SFltb, SFeqb, SFcompare;
    rewrite ?Z.compare_refl, ?Pos.compare_cont_refl; simpl;
    intuition congruence.
Qed.

(** Every price of a record accepted by [MandiPrice_init] is at least 0. *)
Lemma MandiPrice_init_accepts c m s lo hi md d price :
  MandiPrice_init c m s lo hi md d = inr price →
  price = MandiPrice.mk c m s lo hi md d
  ∧ (0 <=? lo)%float = true ∧ (0 <=? hi)%float = true
  ∧ (0 <=? md)%float = true.
Proof.
  unfold MandiPrice_init, failed_fields. simpl.
  destruct (ge_zero lo) eqn:Hlo, (ge_zero hi) eqn:Hhi,
    (ge_zero md) eqn:Hmd; simpl; try discriminate.
  by intros [= <-].
Qed.

Lemma MandiPrice_init_rejects c m s lo hi md d :
  (∃ fields, MandiPrice_init c m s lo hi md d = inl (InvalidValue fields))
  ↔ ge_zero lo = false ∨ ge_zero hi = false ∨ ge_zero md = false.
Proof.
  unfold MandiPrice_init, failed_fields. simpl.
  destruct (ge_zero lo), (ge_zero hi), (ge_zero md); simpl;
    (split; [intros [e He]; first [discriminate He | tauto]
            | intros Hneg; first [by eexists | intuition discriminate]]).
Qed.
End price_facts.

(* ===================================================================== *)
(** * Pest database *)
(* ===================================================================== *)

Section sort_by_more.
Context {A B K : Type} (R : relation K) `{!RelDecision R}.

Lemma sort_by_fmap (key : B → K) (f : A → B) (l : list A) :
  sort_by key R (f <$> l) = f <$> sort_by (key ∘ f) R l.
Proof.
  unfold sort_by. induction l as [|x l IH]; csimpl; [done|]. rewrite IH.
  generalize (foldr (insert_by (key ∘ f) R) [] l). intros k.
  induction k as [|y k IHk]; csimpl; [done|].
  case_decide; csimpl; [done|]. by rewrite IHk.
Qed.

Lemma sort_by_ext (key1 key2 : A → K) (l : list A) :
  (∀ x, key1 x = key2 x) → sort_by key1 R l = sort_by key2 R l.
Proof.
  intros E. unfold sort_by.
  induction l as [|x l IH]; simpl; [done|]. rewrite IH.
  generalize (foldr (insert_by key2 R) [] l). intros k.
  induction k as [|y k IHk]; simpl; [done|].
  rewrite !E, IHk. done.
Qed.
End sort_by_more.

Section pest_facts.
Context {py_lower : PyLower}.
Implicit Types (self : PestDatabase) (pest p : PestInfo.t).
Implicit Types (symptoms : list string) (X : gset string).

Lemma any_contains_lower_set s (l : list string) :
  any_contains s (lower_set l)
  ↔ Exists (λ ps, str_in s (lower ps) = true) l.
Proof.
  unfold any_contains, lower_set, set_Exists. rewrite Exists_exists.
  split.
  - intros (x & Hx & Hs). apply elem_of_list_to_set in Hx.
    apply list_elem_of_fmap in Hx as (ps & -> & Hps). eauto.
  - intros (ps & Hps & Hs). exists (lower ps). split; [|done].
    apply elem_of_list_to_set, list_elem_of_fmap. eauto.
Qed.

(** Counting in a set built from a list counts the distinct members. *)
Lemma size_filter_list_to_set (P : string → Prop) `{!∀ x, Decision (P x)}
    (l : list string) :
  size (filter P (list_to_set l : gset string))
  = length (filter P (remove_dups l)).
Proof.
  unfold size, set_size. simpl. apply Permutation_length.
  apply NoDup_Permutation.
  - apply NoDup_elements.
  - apply NoDup_filter, NoDup_remove_dups.
  - intros x. rewrite elem_of_elements, elem_of_filter,
      elem_of_list_to_set, list_elem_of_filter, elem_of_remove_dups. done.
Qed.

Lemma overlap_of_distinct symptoms pest :
  overlap_of (lower_set symptoms) pest = distinct_overlap symptoms pest.
Proof.
  unfold overlap_of, distinct_overlap.
  change (lower_set symptoms)
    with (list_to_set (lower <$> symptoms) : gset string).
  rewrite size_filter_list_to_set. f_equal.
  apply list_filter_iff. intros s. apply any_contains_lower_set.
Qed.

(** The loop of [identify] keeps the records of positive overlap, each
    paired with its overlap, in catalogue order. *)
Lemma identify_loop X (pests : list PestInfo.t) :
  foldl (identify_step X) [] pests
  = (λ p, (overlap_of X p, p)) <$> filter (λ p, 0 < overlap_of X p) pests.
Proof.
  induction pests as [|p pests IH] using rev_ind; [done|].
  rewrite foldl_snoc, IH, filter_app, fmap_app. unfold identify_step.
  rewrite filter_cons, filter_nil. by case_decide; [|rewrite app_nil_r].
Qed.

Lemma identify_sort_by self symptoms :
  identify self symptoms
  = sort_by (distinct_overlap symptoms) (flip le)
      (filter (λ p, 0 < distinct_overlap symptoms p) (_pests self)).
Proof.
  unfold identify, py_sorted. rewrite identify_loop. rewrite sort_by_fmap.
  rewrite <-list_fmap_compose, list_fmap_id.
  rewrite (sort_by_ext _ _ (distinct_overlap symptoms))
    by (intros p; apply overlap_of_distinct).
  f_equal. apply list_filter_iff. intros p.
  by rewrite overlap_of_distinct.
Qed.

(** C2, as the code has it.  For every catalogue and every list of
    observed symptoms, the overlap that [identify] computes for a record
    is the number of distinct lowercased observed symptoms contained in
    some lowercased symptom of the record (an observed symptom given
    several times counts once); the result holds exactly the records of
    positive overlap, the overlap never increases along it, and records
    of equal overlap stand in catalogue order. *)
Theorem identify_ranks_by_distinct_overlap self symptoms :
  identify_ranks_by distinct_overlap self symptoms.
Proof.
  split; [intros pest; apply overlap_of_distinct|].
  rewrite identify_sort_by. split_and!.
  - intros p. rewrite elem_of_sort_by, list_elem_of_filter. tauto.
  - apply (StronglySorted_sort_by (distinct_overlap symptoms) (flip le)).
  - intros k Hk. rewrite sort_by_stable by (intros a; unfold flip; lia).
    rewrite list_filter_filter. apply list_filter_iff. intros p. lia.
Qed.
End pest_facts.

(* ===================================================================== *)
(** * Validation of price records *)
(* ===================================================================== *)

Lemma tracker_built_prices self :
  tracker_built self →
  Forall (λ p, (0 <=? MandiPrice.min_price p)%float = true
               ∧ (0 <=? MandiPrice.max_price p)%float = true
               ∧ (0 <=? MandiPrice.modal_price p)%float = true)
         (_store self).
Proof.
  induction 1 as [|self c m s lo hi md d price _ IH Hinit]; simpl.
  - constructor.
  - apply Forall_app. split; [exact IH|].
    apply MandiPrice_init_accepts in Hinit as (-> & ? & ? & ?).
    by repeat constructor.
Qed.

(** C7, as the code has it.  Building a price record fails, with the error
    [InvalidValue], exactly when one of its three prices is negative or is
    NaN, that is, fails the check [ge=0.0]; it succeeds with the record of
    the given fields otherwise; so every record of a tracker that was
    filled by [add_price] with built records has its three prices at least
    0. *)
Theorem MandiPrice_validation :
  (∀ c m s lo hi md d,
     (∃ fields, MandiPrice_init c m s lo hi md d = inl (InvalidValue fields))
     ↔ ((lo <? 0)%float = true ∨ PrimFloat.is_nan lo = true)
       ∨ ((hi <? 0)%float = true ∨ PrimFloat.is_nan hi = true)
       ∨ ((md <? 0)%float = true ∨ PrimFloat.is_nan md = true))
  ∧ (∀ c m s lo hi md d,
       (∃ fields,
          MandiPrice_init c m s lo hi md d = inl (InvalidValue fields))
       ∨ MandiPrice_init c m s lo hi md d
         = inr (MandiPrice.mk c m s lo hi md d))
  ∧ (∀ self p,
       tracker_built self → p ∈ _store self →
       (0 <=? MandiPrice.min_price p)%float = true
       ∧ (0 <=? MandiPrice.max_price p)%float = true
       ∧ (0 <=? MandiPrice.modal_price p)%float = true).
Proof.
  split_and!.
  - intros. rewrite <-!ge_zero_false. apply MandiPrice_init_rejects.
  - intros. unfold MandiPrice_init.
    destruct (failed_fields _); [by right|left; eauto].
  - intros self p Hself Hp.
    by apply (proj1 (Forall_forall _ _) (tracker_built_prices self Hself)).
Qed.

Lemma loaded_tracker_built : tracker_built loaded_tracker.
Proof.
  unfold loaded_tracker.
  repeat match goal with
  | |- tracker_built (add_price _ (MandiPrice.mk ?c ?m ?s ?lo ?hi ?md ?d)) =>
      apply (built_add _ c m s lo hi md d); [|reflexivity]
  end.
  apply built_init.
Defined.

Lemma MandiPrice_validation_witness :
  (∃ fields,
     MandiPrice_init "wheat" "Delhi" "Delhi" (-100) 2000 1900 "2026-02-26"
     = inl (InvalidValue fields))
  ∧ Forall (λ p, (0 <=? MandiPrice.min_price p)%float = true
                 ∧ (0 <=? MandiPrice.max_price p)%float = true
                 ∧ (0 <=? MandiPrice.modal_price p)%float = true)
           (_store loaded_tracker).
Proof.
  destruct MandiPrice_validation as (Hfail & _ & Hstore). split.
  - apply Hfail. left. left. reflexivity.
  - apply Forall_forall. intros p Hp.
    exact (Hstore loaded_tracker p loaded_tracker_built Hp).
Defined.

(** C7 as stated fails on NaN: with a minimum price that is not a number
    the record is refused, for the field [min_price], though none of the
    three prices is negative. *)
Lemma MandiPrice_init_rejects_nan :
  MandiPrice_init "wheat" "Delhi" "Delhi" nan 2000 1900 "2026-02-26"
  = inl (InvalidValue ["min_price"])
  ∧ (nan <? 0)%float = false
  ∧ (2000 <? 0)%float = false
  ∧ (1900 <? 0)%float = false.
Proof. repeat split. Defined.

(* ===================================================================== *)
(** * Lookups that match nothing *)
(* ===================================================================== *)

Section unknown_keys.
Context {py_lower : PyLower}.

Lemma identify_nil_iff (self : PestDatabase) (symptoms : list string) :
  identify self symptoms = []
  ↔ ∀ p, p ∈ _pests self → distinct_overlap symptoms p = 0.
Proof.
  rewrite identify_sort_by. split.
  - intros E%sort_by_nil_inv p Hp.
    pose proof (proj1 (filter_nil_iff _ _) E p Hp) as Hz.
    simpl in Hz. lia.
  - intros Hp. replace (filter _ _) with (@nil PestInfo.t); [done|].
    symmetry. apply filter_nil_iff. intros p ?%Hp. lia.
Qed.

(** C6, as the code has it.  A lookup that matches nothing returns the
    empty list: [get_prices] for a commodity no stored record has, or for
    a non-empty state no stored record has; [price_trend] for a commodity
    or a market no stored record has; [by_crop] for a crop no catalogued
    record lists; [identify] for no symptom at all, or for symptoms none
    of which occurs in a catalogued symptom.  All comparisons are up to
    case, and every one of these functions is total. *)
Theorem lookups_empty_on_unknown :
  (∀ (self : MandiPriceTracker) (c : string) (st : option string),
     (∀ p, p ∈ _store self →
           lower (MandiPrice.commodity p) ≠ lower c) →
     get_prices self c st = [])
  ∧ (∀ (self : MandiPriceTracker) (c s : string),
       s ≠ "" →
       (∀ p, p ∈ _store self → lower (MandiPrice.state p) ≠ lower s) →
       get_prices self c (Some s) = [])
  ∧ (∀ (self : MandiPriceTracker) (c m : string),
       (∀ p, p ∈ _store self →
             lower (MandiPrice.commodity p) ≠ lower c) →
       price_trend self c m = [])
  ∧ (∀ (self : MandiPriceTracker) (c m : string),
       (∀ p, p ∈ _store self → lower (MandiPrice.market p) ≠ lower m) →
       price_trend self c m = [])
  ∧ (∀ (self : PestDatabase) (crop_name : string),
       (∀ p c, p ∈ _pests self → c ∈ PestInfo.affected_crops p →
               lower c ≠ lower crop_name) →
       by_crop self crop_name = [])
  ∧ (∀ self : PestDatabase, identify self [] = [])
  ∧ (∀ (self : PestDatabase) (symptoms : list string),
       (∀ s p ps, s ∈ symptoms → p ∈ _pests self →
                  ps ∈ PestInfo.symptoms p →
                  str_in (lower s) (lower ps) = false) →
       identify self symptoms = []).
Proof.
  split_and!.
  - intros self c st Hc. apply elem_of_nil_inv. intros p.
    rewrite elem_of_get_prices. intros (Hp & E & _). by apply (Hc p).
  - intros self c s Hs Hst. apply elem_of_nil_inv. intros p.
    rewrite elem_of_get_prices. intros (Hp & _ & E). by apply (Hst p), E.
  - intros self c m Hc. apply elem_of_nil_inv. intros p.
    rewrite elem_of_price_trend. intros (Hp & E & _). by apply (Hc p).
  - intros self c m Hm. apply elem_of_nil_inv. intros p.
    rewrite elem_of_price_trend. intros (Hp & _ & E). by apply (Hm p).
  - intros self crop_name Hc. unfold by_crop. apply filter_nil_iff.
    intros p Hp (c & Hin & E)%Exists_exists. by apply (Hc p c).
  - intros self. by apply identify_nil_iff.
  - intros self symptoms Hno. apply identify_nil_iff. intros p Hp.
    unfold distinct_overlap.
    replace (filter _ _) with (@nil string); [done|].
    symmetry. apply filter_nil_iff.
    intros s' Hs' (ps & Hps & Hin)%Exists_exists.
    apply elem_of_remove_dups, list_elem_of_fmap in Hs' as (s & -> & Hs).
    by rewrite (Hno s p ps) in Hin.
Qed.
End unknown_keys.

(* ===================================================================== *)
(** * Farmer assistant *)
(* ===================================================================== *)

Section best_match_facts.
Implicit Types (rules : list (list string * string * list string)).
Implicit Types (rule r : list string * string * list string).
Implicit Types (ql : string) (i j : nat).

(** The state of the loop of [respond] after any number of rules: still
    the default when no rule scored, else the first rule of the highest
    score. *)
Lemma best_match_cases rules ql :
  (best_match rules ql = (0, default_answer, default_sources)
   ∧ ∀ r, r ∈ rules → keyword_score r.1.1 ql = 0)
  ∨ (∃ i rule,
       first_best rules ql i rule
       ∧ best_match rules ql
         = (keyword_score rule.1.1 ql, rule.1.2, rule.2)).
Proof.
  unfold best_match.
  induction rules as [|x rules IH] using rev_ind.
  { left. split; [done|]. by intros r ?%elem_of_nil. }
  rewrite foldl_snoc.
  destruct IH as [[-> Hzero]|(i & rule & (Hi & Hpos & Hlt & Hle) & ->)].
  - destruct x as [[kws ans] srcs]. simpl.
    case_decide as Hx.
    + right. exists (length rules), (kws, ans, srcs). split; [|done].
      split_and!; simpl.
      * by rewrite lookup_app_r, Nat.sub_diag by lia.
      * done.
      * intros j r Hj Hr. rewrite lookup_app_l in Hr by done.
        rewrite (Hzero r); [done|]. by eapply list_elem_of_lookup_2.
      * intros j r Hj Hr. apply lookup_lt_Some in Hr.
        rewrite length_app in Hr. simpl in Hr. lia.
    + left. split; [done|]. intros r [Hr| ->%list_elem_of_singleton]%elem_of_app.
      * by apply Hzero.
      * simpl. lia.
  - assert (i < length rules) as Hilen by (by eapply lookup_lt_Some).
    destruct rule as [[kws0 ans0] srcs0], x as [[kws ans] srcs]. simpl in *.
    case_decide as Hx; right.
    + exists (length rules), (kws, ans, srcs). split; [|done].
      split_and!; simpl.
      * by rewrite lookup_app_r, Nat.sub_diag by lia.
      * lia.
      * intros j r Hj Hr. rewrite lookup_app_l in Hr by done.
        destruct (Nat.lt_trichotomy j i) as [Hji|[->|Hji]].
        -- pose proof (Hlt j r Hji Hr). lia.
        -- rewrite Hi in Hr. injection Hr as <-. simpl. lia.
        -- pose proof (Hle j r Hji Hr). lia.
      * intros j r Hj Hr. apply lookup_lt_Some in Hr.
        rewrite length_app in Hr. simpl in Hr. lia.
    + exists i, (kws0, ans0, srcs0). split; [|done].
      split_and!; simpl.
      * by rewrite lookup_app_l.
      * done.
      * intros j r Hj Hr. rewrite lookup_app_l in Hr by lia.
        by apply (Hlt j r).
      * intros j r Hj Hr. apply lookup_app_Some in Hr as [Hr|[Hlen Hr]].
        -- by apply (Hle j r).
        -- apply list_lookup_singleton_Some in Hr as [_ <-]. simpl. lia.
Qed.

(** At most one rule is the first of the highest score. *)
Lemma first_best_unique rules ql i j rule r :
  first_best rules ql i rule → first_best rules ql j r →
  i = j ∧ rule = r.
Proof.
  intros (Hi & _ & Hlti & Hlei) (Hj & _ & Hltj & Hlej).
  destruct (Nat.lt_trichotomy i j) as [Hij|[->|Hij]].
  - pose proof (Hltj i rule Hij Hi). pose proof (Hlei j r Hij Hj). lia.
  - split; [done|]. congruence.
  - pose proof (Hlti j r Hij Hj). pose proof (Hlej i rule Hij Hi). lia.
Qed.
End best_match_facts.

Lemma str_app_empty_r (s : string) : s +:+ "" = s.
Proof. induction s as [|c s IH]; simpl; [done|]. unfold String.app in *. simpl. by rewrite IH. Qed.

Lemma keyword_answers_nonempty :
  Forall (λ rule : list string * string * list string, rule.1.2 ≠ "")
         _KEYWORD_RESPONSES.
Proof. repeat constructor; discriminate. Qed.

Section respond_facts.
Context {py_lower : PyLower}.
Implicit Types (query : FarmerQuery.t).
Implicit Types (rule r : list string * string * list string).

(** The response in terms of the final state of the loop. *)
Lemma respond_best_match query :
  let best :=
    best_match _KEYWORD_RESPONSES (lower (FarmerQuery.query query)) in
  respond query
  = {| FarmerResponse.answer :=
         best.1.2 +:+ location_suffix (FarmerQuery.location query);
       FarmerResponse.sources := best.2;
       FarmerResponse.language := FarmerQuery.language query;
       FarmerResponse.disclaimer := AGRICULTURAL_DISCLAIMER |}.
Proof.
  unfold respond, location_suffix.
  destruct (best_match _ _) as [[n ans] srcs]. simpl.
  destruct (FarmerQuery.location query) as [l|];
    [destruct (str_truthy l)|]; by rewrite ?str_app_empty_r.
Qed.

(** C1.  For every query, whatever its text, language and location, the
    response of [respond] has a non-empty answer and carries the fixed
    disclaimer; [respond] is a total function, so it never fails. *)
Theorem respond_answer_nonempty_disclaimer query :
  FarmerResponse.answer (respond query) ≠ ""
  ∧ FarmerResponse.disclaimer (respond query)
    = "Verify recommendations with local agricultural experts before application.".
Proof.
  rewrite respond_best_match. simpl. split; [|done].
  apply app_nonempty.
  destruct (best_match_cases _KEYWORD_RESPONSES
              (lower (FarmerQuery.query query)))
    as [[-> _]|(i & rule & (Hi & _) & ->)]; simpl; [done|].
  apply list_elem_of_lookup_2 in Hi.
  by apply (proj1 (Forall_forall _ _) keyword_answers_nonempty).
Qed.

(** C3.  For every query, a rule that scores above 0, strictly above
    every rule before it in the table and at least as high as every rule
    after it, is the rule whose answer and sources [respond] returns (the
    answer followed by what the location adds): of two rules that tie on
    the highest score the earlier one wins.  Such a rule exists as soon
    as some rule scores above 0. *)
Theorem respond_first_best_rule query :
  (∀ i rule,
     _KEYWORD_RESPONSES !! i = Some rule →
     0 < rule_score query rule →
     (∀ j r, j < i → _KEYWORD_RESPONSES !! j = Some r →
             rule_score query r < rule_score query rule) →
     (∀ j r, i < j → _KEYWORD_RESPONSES !! j = Some r →
             rule_score query r ≤ rule_score query rule) →
     FarmerResponse.sources (respond query) = rule.2
     ∧ FarmerResponse.answer (respond query)
       = rule.1.2 +:+ location_suffix (FarmerQuery.location query))
  ∧ ((∃ r, r ∈ _KEYWORD_RESPONSES ∧ 0 < rule_score query r) →
   ∃ i rule,
     _KEYWORD_RESPONSES !! i = Some rule
     ∧ 0 < rule_score query rule
     ∧ (∀ j r, j < i → _KEYWORD_RESPONSES !! j = Some r →
               rule_score query r < rule_score query rule)
     ∧ (∀ j r, i < j → _KEYWORD_RESPONSES !! j = Some r →
               rule_score query r ≤ rule_score query rule)
     ∧ FarmerResponse.sources (respond query) = rule.2
     ∧ FarmerResponse.answer (respond query)
       = rule.1.2 +:+ location_suffix (FarmerQuery.location query)).
Proof.
  pose proof (best_match_cases _KEYWORD_RESPONSES
                (lower (FarmerQuery.query query))) as Hcases.
  split.
  - intros i rule Hi Hpos Hlt Hle.
    assert (first_best _KEYWORD_RESPONSES
              (lower (FarmerQuery.query query)) i rule) as Hfb
      by (by split_and!).
    rewrite respond_best_match. simpl.
    destruct Hcases as [[_ Hzero]|(i' & rule' & Hfb' & ->)].
    + apply list_elem_of_lookup_2 in Hi. apply Hzero in Hi.
      unfold rule_score in Hpos. lia.
    + destruct (first_best_unique _ _ _ _ _ _ Hfb Hfb') as [_ <-]. done.
  - intros (r & Hr & Hpos). rewrite respond_best_match. simpl.
  destruct Hcases as [[_ Hzero]|(i & rule & (Hi & Hp & Hlt & Hle) & ->)].
  + apply Hzero in Hr. unfold rule_score in Hpos. lia.
  + exists i, rule. by split_and!.
Qed.

(** C9.  For every query that no rule scores above 0, [respond] returns
    the default sources and the default answer, followed by what the
    location adds; with no location, or an empty one, the answer is the
    default answer as it stands. *)
Theorem respond_default query :
  (∀ rule, rule ∈ _KEYWORD_RESPONSES → rule_score query rule = 0) →
  FarmerResponse.sources (respond query)
  = ["Kisan Call Centre (1800-180-1551)"; "Kisan Suvidha App"]
  ∧ FarmerResponse.answer (respond query)
    = default_answer +:+ location_suffix (FarmerQuery.location query)
  ∧ (FarmerQuery.location query = None
   ∨ FarmerQuery.location query = Some "" →
   FarmerResponse.answer (respond query) = default_answer).
Proof.
  intros Hzero. rewrite respond_best_match. simpl.
  destruct (best_match_cases _KEYWORD_RESPONSES
              (lower (FarmerQuery.query query)))
    as [[-> _]|(i & rule & (Hi & Hpos & _) & _)]; simpl.
  - split_and!; [done..|]. intros [-> | ->]; apply str_app_empty_r.
  - apply list_elem_of_lookup_2, Hzero in Hi.
    unfold rule_score in Hi. lia.
Qed.

(** C8.  For every query with a non-empty location, the answer of
    [respond] is the answer to the same query without location, followed
    by the sentence that names the location; so the location occurs in
    the answer, whichever rule matched and also when none did. *)
Theorem respond_location query location :
  FarmerQuery.location query = Some location →
  location ≠ "" →
  FarmerResponse.answer (respond query)
  = FarmerResponse.answer
      (respond (FarmerQuery.mk (FarmerQuery.query query)
                               (FarmerQuery.language query) None))
    +:+ " For location-specific advice in " +:+ location
    +:+ ", contact your local Block Agriculture Officer or Krishi Vigyan Kendra."
  ∧ str_in location (FarmerResponse.answer (respond query)) = true.
Proof.
  intros Hloc Hne%str_truthy_true.
  assert (FarmerResponse.answer (respond query)
          = FarmerResponse.answer
              (respond (FarmerQuery.mk (FarmerQuery.query query)
                                       (FarmerQuery.language query) None))
            +:+ " For location-specific advice in " +:+ location
            +:+ ", contact your local Block Agriculture Officer or Krishi Vigyan Kendra.")
    as E.
  { rewrite !respond_best_match. simpl.
    rewrite Hloc. simpl. rewrite Hne, str_app_empty_r. done. }
  split; [exact E|]. rewrite E.
  apply str_in_app_r, str_in_middle.
Qed.
End respond_facts.

(* ===================================================================== *)
(** * The model on the examples of the test suite *)
(* ===================================================================== *)

Example get_prices_newest_first :
  MandiPrice.date <$> @get_prices ascii_lower loaded_tracker "RICE" None
  = ["2026-02-26"; "2026-02-25"; "2026-02-24"].
Proof. reflexivity. Qed.

Example get_prices_by_state :
  MandiPrice.market <$> @get_prices ascii_lower loaded_tracker "rice" (Some "up")
  = ["Lucknow"].
Proof. reflexivity. Qed.

Example price_trend_oldest_first :
  (λ p, (MandiPrice.commodity p, MandiPrice.date p))
    <$> @price_trend ascii_lower loaded_tracker "Rice" "azadpur"
  = [("rice", "2026-02-25")].
Proof. reflexivity. Qed.

Example identify_hopperburn_first :
  head (PestInfo.name
          <$> @identify ascii_lower PestDatabase_init
                ["yellowing"; "wilting"; "hopperburn"])
  = Some "Brown Plant Hopper".
Proof. vm_compute. reflexivity. Qed.

Example identify_substring_match :
  "Jassid (Leafhopper)"
  ∈ PestInfo.name <$> @identify ascii_lower PestDatabase_init ["Yellowing"].
Proof. vm_compute. do 5 right. left. Qed.

Example by_crop_rice :
  PestInfo.name <$> @by_crop ascii_lower PestDatabase_init "RICE"
  = ["Brown Plant Hopper"; "Stem Borer"; "Leaf Folder"; "Blast (Rice Blast)";
     "Leaf Blight"; "Caterpillar (Army Worm)"; "Fall Armyworm"].
Proof. vm_compute. reflexivity. Qed.

Example respond_nashik_sources :
  FarmerResponse.sources (@respond ascii_lower nashik_query)
  = ["Soil Health Card scheme (soilhealth.dac.gov.in)";
     "ICAR nutrient management guidelines"].
Proof. vm_compute. reflexivity. Qed.

Example respond_language_echoed :
  FarmerResponse.language (@respond ascii_lower unknown_query) = "hi".
Proof. vm_compute. reflexivity. Qed.

(* ===================================================================== *)
(** * The statements on sample data *)
(* ===================================================================== *)

(** Decides a statement about every member of a concrete list. *)
Ltac for_each_member :=
  apply Forall_forall; compute_done.

Lemma get_prices_state_filter_witness :
  "up" ≠ ""
  ∧ (∀ p, p ∈ @get_prices ascii_lower loaded_tracker "Rice" (Some "up") →
          p ∈ @get_prices ascii_lower loaded_tracker "Rice" None
          ∧ ascii_lower (MandiPrice.state p) = ascii_lower "up")
  ∧ (∀ c' st, ascii_lower c' = ascii_lower "Rice" →
              @get_prices ascii_lower loaded_tracker c' st
              = @get_prices ascii_lower loaded_tracker "Rice" st).
Proof.
  split; [discriminate|].
  destruct (get_prices_state_filter (py_lower:=ascii_lower)
              loaded_tracker "Rice" "up") as (Hsub & _ & Hcase);
    [discriminate|].
  split; [exact (λ p, proj1 (Hsub p))|exact Hcase].
Defined.

(** C6 as stated fails on the empty state: no record of the sample tracker
    has the state [""], yet [get_prices] with that state returns the wheat
    record, because an empty state argument is not used as a filter. *)
Lemma get_prices_unknown_empty_state :
  (∀ p, p ∈ _store loaded_tracker →
        ascii_lower (MandiPrice.state p) ≠ ascii_lower "")
  ∧ MandiPrice.market
      <$> @get_prices ascii_lower loaded_tracker "wheat" (Some "")
    = ["Azadpur"]
  ∧ @get_prices ascii_lower loaded_tracker "wheat" (Some "") ≠ [].
Proof.
  split; [for_each_member|]. split; [reflexivity|discriminate].
Defined.

Lemma lookups_empty_on_unknown_witness :
  ((∀ p, p ∈ _store loaded_tracker →
         ascii_lower (MandiPrice.commodity p) ≠ ascii_lower "barley")
   ∧ @get_prices ascii_lower loaded_tracker "barley" None = [])
  ∧ ("Kerala" ≠ ""
     ∧ (∀ p, p ∈ _store loaded_tracker →
             ascii_lower (MandiPrice.state p) ≠ ascii_lower "Kerala")
     ∧ @get_prices ascii_lower loaded_tracker "rice" (Some "Kerala") = [])
  ∧ ((∀ p, p ∈ _store loaded_tracker →
           ascii_lower (MandiPrice.commodity p) ≠ ascii_lower "barley")
     ∧ @price_trend ascii_lower loaded_tracker "barley" "Azadpur" = [])
  ∧ ((∀ p, p ∈ _store loaded_tracker →
           ascii_lower (MandiPrice.market p) ≠ ascii_lower "Nowhere")
     ∧ @price_trend ascii_lower loaded_tracker "rice" "Nowhere" = [])
  ∧ ((∀ p c, p ∈ _pests PestDatabase_init → c ∈ PestInfo.affected_crops p →
             ascii_lower c ≠ ascii_lower "quinoa")
     ∧ @by_crop ascii_lower PestDatabase_init "quinoa" = [])
  ∧ @identify ascii_lower PestDatabase_init [] = []
  ∧ ((∀ s p ps, s ∈ ["no-such-symptom-xyz"] → p ∈ _pests PestDatabase_init →
                ps ∈ PestInfo.symptoms p →
                str_in (ascii_lower s) (ascii_lower ps) = false)
     ∧ @identify ascii_lower PestDatabase_init ["no-such-symptom-xyz"] = []).
Proof.
  destruct (lookups_empty_on_unknown (py_lower:=ascii_lower))
    as (Hcomm & Hstate & Htrend_c & Htrend_m & Hcrop & Hnone & Hnomatch).
  assert (∀ p, p ∈ _store loaded_tracker →
               ascii_lower (MandiPrice.commodity p) ≠ ascii_lower "barley")
    as Hbarley by for_each_member.
  assert (∀ p, p ∈ _store loaded_tracker →
               ascii_lower (MandiPrice.state p) ≠ ascii_lower "Kerala")
    as Hkerala by for_each_member.
  assert (∀ p, p ∈ _store loaded_tracker →
               ascii_lower (MandiPrice.market p) ≠ ascii_lower "Nowhere")
    as Hnowhere by for_each_member.
  assert (∀ p c, p ∈ _pests PestDatabase_init →
                 c ∈ PestInfo.affected_crops p →
                 ascii_lower c ≠ ascii_lower "quinoa") as Hquinoa.
  { intros p c Hp. revert c. apply Forall_forall. revert p Hp.
    for_each_member. }
  assert (∀ s p ps, s ∈ ["no-such-symptom-xyz"] →
                    p ∈ _pests PestDatabase_init →
                    ps ∈ PestInfo.symptoms p →
                    str_in (ascii_lower s) (ascii_lower ps) = false) as Hxyz.
  { intros s p ps ->%list_elem_of_singleton Hp. revert ps.
    apply Forall_forall. revert p Hp. for_each_member. }
  split_and!;
    [exact Hbarley | exact (Hcomm _ _ _ Hbarley)
    | discriminate | exact Hkerala
    | apply (Hstate _ _ _); [discriminate | exact Hkerala]
    | exact Hbarley | exact (Htrend_c _ _ _ Hbarley)
    | exact Hnowhere | exact (Htrend_m _ _ _ Hnowhere)
    | exact Hquinoa | exact (Hcrop _ _ Hquinoa)
    | exact (Hnone _)
    | exact Hxyz | exact (Hnomatch _ _ Hxyz) ].
Defined.

(** C2 as stated fails on a repeated symptom.  With "night feeding" given
    twice the stated score of Cutworm is 2 and that of Brown Plant Hopper
    is 1, but the code scores both 1 and returns Brown Plant Hopper first:
    the result is not ranked by the stated score. *)
Lemma identify_repeated_symptom_counterexample :
  (λ p, (PestInfo.name p,
         @overlap_of ascii_lower (@lower_set ascii_lower repeated_symptoms) p,
         @spec_overlap ascii_lower repeated_symptoms p))
    <$> @identify ascii_lower PestDatabase_init repeated_symptoms
  = [("Brown Plant Hopper", 1, 1); ("Aphids", 1, 1); ("Whitefly", 1, 1);
     ("Red Spider Mite", 1, 1); ("Mealy Bug", 1, 1); ("Cutworm", 1, 2);
     ("Jassid (Leafhopper)", 1, 1); ("Powdery Mildew", 1, 1);
     ("Nematodes (Root Knot)", 1, 1); ("Rust (Groundnut)", 1, 1);
     ("White Grub", 1, 1); ("Scales", 1, 1); ("Mango Hopper", 1, 1)]
  ∧ ¬ @identify_ranks_by ascii_lower (@spec_overlap ascii_lower)
        PestDatabase_init repeated_symptoms.
Proof.
  split; [vm_compute; reflexivity|].
  intros [_ (_ & Hsorted & _)].
  assert (∃ bph rest,
            @identify ascii_lower PestDatabase_init repeated_symptoms
            = bph :: rest
            ∧ @spec_overlap ascii_lower repeated_symptoms bph = 1
            ∧ Exists (λ p, @spec_overlap ascii_lower repeated_symptoms p = 2)
                     rest) as (bph & rest & E & Hbph & Hrest).
  { eexists _, _. split; [vm_compute; reflexivity|].
    split; [vm_compute; reflexivity|].
    do 4 apply Exists_cons_tl. apply Exists_cons_hd.
    vm_compute. reflexivity. }
  rewrite E in Hsorted. apply StronglySorted_inv in Hsorted as [_ Hall].
  apply Exists_exists in Hrest as (p & Hp & Hscore).
  pose proof (proj1 (Forall_forall _ _) Hall p Hp) as Hle.
  simpl in Hle. lia.
Defined.

Lemma identify_ranks_by_distinct_overlap_witness :
  @identify_ranks_by ascii_lower (@distinct_overlap ascii_lower)
    PestDatabase_init repeated_symptoms.
Proof.
  exact (identify_ranks_by_distinct_overlap (py_lower:=ascii_lower)
           PestDatabase_init repeated_symptoms).
Defined.

Lemma respond_first_best_rule_witness :
  (_KEYWORD_RESPONSES !! 3 = Some irrigation_rule
   ∧ 0 < @rule_score ascii_lower rain_query irrigation_rule
   ∧ (∀ j r, j < 3 → _KEYWORD_RESPONSES !! j = Some r →
             @rule_score ascii_lower rain_query r
             < @rule_score ascii_lower rain_query irrigation_rule)
   ∧ (∀ j r, 3 < j → _KEYWORD_RESPONSES !! j = Some r →
             @rule_score ascii_lower rain_query r
             ≤ @rule_score ascii_lower rain_query irrigation_rule))
  ∧ (∃ weather_rule,
       _KEYWORD_RESPONSES !! 5 = Some weather_rule
       ∧ @rule_score ascii_lower rain_query weather_rule
         = @rule_score ascii_lower rain_query irrigation_rule)
  ∧ FarmerResponse.sources (@respond ascii_lower rain_query)
    = irrigation_rule.2
  ∧ FarmerResponse.answer (@respond ascii_lower rain_query)
    = irrigation_rule.1.2 +:+ location_suffix None.
Proof.
  assert (∀ j r, j < 3 → _KEYWORD_RESPONSES !! j = Some r →
                 @rule_score ascii_lower rain_query r
                 < @rule_score ascii_lower rain_query irrigation_rule)
    as Hbefore.
  { intros j r Hj Hr.
    do 3 (destruct j as [|j];
          [injection Hr as <-; vm_compute; lia|]). lia. }
  assert (∀ j r, 3 < j → _KEYWORD_RESPONSES !! j = Some r →
                 @rule_score ascii_lower rain_query r
                 ≤ @rule_score ascii_lower rain_query irrigation_rule)
    as Hafter.
  { intros j r Hj Hr.
    do 4 (destruct j as [|j]; [lia|]).
    do 5 (destruct j as [|j];
          [injection Hr as <-; vm_compute; lia|]). discriminate Hr. }
  assert (0 < @rule_score ascii_lower rain_query irrigation_rule) as Hpos
    by (vm_compute; lia).
  split; [by split_and!|].
  split; [eexists; split; [reflexivity|vm_compute; reflexivity]|].
  exact (proj1 (respond_first_best_rule (py_lower:=ascii_lower) rain_query)
           3 irrigation_rule eq_refl Hpos Hbefore Hafter).
Defined.

Lemma respond_default_witness :
  (∀ rule, rule ∈ _KEYWORD_RESPONSES →
           @rule_score ascii_lower unknown_query rule = 0)
  ∧ FarmerResponse.sources (@respond ascii_lower unknown_query)
    = ["Kisan Call Centre (1800-180-1551)"; "Kisan Suvidha App"]
  ∧ FarmerResponse.answer (@respond ascii_lower unknown_query)
    = default_answer +:+ location_suffix (Some "Pune").
Proof.
  assert (∀ rule, rule ∈ _KEYWORD_RESPONSES →
                  @rule_score ascii_lower unknown_query rule = 0) as Hzero
    by for_each_member.
  split; [exact Hzero|].
  destruct (respond_default (py_lower:=ascii_lower) unknown_query Hzero)
    as (Hsources & Hanswer & _).
  split; [exact Hsources|exact Hanswer].
Defined.

Lemma respond_location_witness :
  FarmerQuery.location nashik_query = Some "Nashik"
  ∧ "Nashik" ≠ ""
  ∧ str_in "Nashik"
      (FarmerResponse.answer (@respond ascii_lower nashik_query)) = true.
Proof.
  split; [reflexivity|]. split; [discriminate|].
  apply (respond_location (py_lower:=ascii_lower) nashik_query "Nashik");
    [reflexivity|discriminate].
Defined.

(* ===================================================================== *)
(** * Stable sorting and filtering *)
(* ===================================================================== *)

Section sort_compose.
Context {A K : Type} (key : A → K) (R : relation K) `{!RelDecision R}.
Implicit Types (x y : A) (l k : list A).

Lemma sort_by_cons x l :
  sort_by key R (x :: l) = insert_by key R x (sort_by key R l).
Proof. reflexivity. Qed.

(** An element that may stand before all of [k] is put in front of it. *)
Lemma insert_by_below x k :
  (∀ z, z ∈ k → R (key x) (key z)) → insert_by key R x k = x :: k.
Proof.
  destruct k as [|y k]; simpl; [done|]. intros Hk.
  rewrite decide_True; [done|]. apply Hk. left.
Qed.

(** Sorting a list that is in order already returns it. *)
Lemma sort_by_sorted l : Sorted (on_key key R) l → sort_by key R l = l.
Proof.
  induction 1 as [|x l Hl IH Hx]; [done|].
  rewrite sort_by_cons, IH.
  destruct Hx as [|y l Hxy]; simpl; [done|]. by rewrite decide_True.
Qed.

Lemma filter_insert_by `{!Transitive R} (P : A → Prop)
    `{!∀ x, Decision (P x)} x l :
  StronglySorted (on_key key R) l →
  filter P (insert_by key R x l)
  = if decide (P x) then insert_by key R x (filter P l) else filter P l.
Proof.
  induction 1 as [|y l Hl IH Hy]; simpl.
  { rewrite filter_cons, filter_nil. by case_decide. }
  destruct (decide (R (key x) (key y))) as [Hxy|Hxy].
  - rewrite (filter_cons _ x). case_decide; [|done].
    rewrite insert_by_below; [done|].
    intros z [_ Hz]%list_elem_of_filter.
    apply elem_of_cons in Hz as [->|Hz]; [done|].
    transitivity (key y); [done|].
    by apply (proj1 (Forall_forall _ _) Hy z).
  - rewrite (filter_cons _ y), IH, (filter_cons _ y).
    destruct (decide (P x)), (decide (P y)); simpl; try done.
    by rewrite decide_False.
Qed.

(** Filtering commutes with stable sorting. *)
Lemma filter_sort_by `{!Total R, !Transitive R} (P : A → Prop)
    `{!∀ x, Decision (P x)} l :
  filter P (sort_by key R l) = sort_by key R (filter P l).
Proof.
  induction l as [|x l IH]; [done|].
  rewrite sort_by_cons, filter_insert_by
    by apply (StronglySorted_sort_by key R).
  rewrite filter_cons, IH. by case_decide.
Qed.
End sort_compose.

Lemma filter_py_sorted {A K : Type} (key : A → K) (R : relation K)
    `{!RelDecision R, !Total R, !Transitive R} (P : A → Prop)
    `{!∀ x, Decision (P x)} reverse (l : list A) :
  filter P (py_sorted key R reverse l) = py_sorted key R reverse (filter P l).
Proof. destruct reverse; apply filter_sort_by; apply _. Qed.

(* ===================================================================== *)
(** * Mandi price tracker: adding and querying *)
(* ===================================================================== *)

Section tracker_more.
Context {py_lower : PyLower}.
Implicit Types (self : MandiPriceTracker) (p q price : MandiPrice.t).
Implicit Types (c m s : string) (st : option string).

(** The two queries as stable sorts of the matching stored records. *)
Lemma get_prices_None self c :
  get_prices self c None
  = sort_by MandiPrice.date (flip String.le)
      (filter (λ p, lower (MandiPrice.commodity p) = lower c) (_store self)).
Proof. reflexivity. Qed.

Lemma price_trend_sort_by self c m :
  price_trend self c m
  = sort_by MandiPrice.date String.le
      (filter (λ p, lower (MandiPrice.commodity p) = lower c
                    ∧ lower (MandiPrice.market p) = lower m) (_store self)).
Proof. reflexivity. Qed.

(** X1.  A record just added is found again: under its own commodity, under
    its own commodity and state, and in the trend of its own commodity and
    market. *)
Theorem add_price_found self price :
  price ∈ get_prices (add_price self price)
            (MandiPrice.commodity price) None
  ∧ price ∈ get_prices (add_price self price)
              (MandiPrice.commodity price) (Some (MandiPrice.state price))
  ∧ price ∈ price_trend (add_price self price)
              (MandiPrice.commodity price) (MandiPrice.market price).
Proof.
  assert (price ∈ _store (add_price self price)) as Hin
    by (simpl; apply elem_of_app; right; left).
  split_and!.
  - apply elem_of_get_prices. by split_and!.
  - apply elem_of_get_prices. by split_and!.
  - apply elem_of_price_trend. by split_and!.
Qed.

(** X2.  Adding a record of another commodity changes no answer for this
    commodity. *)
Theorem add_price_other_commodity self price c st m :
  lower (MandiPrice.commodity price) ≠ lower c →
  get_prices (add_price self price) c st = get_prices self c st
  ∧ price_trend (add_price self price) c m = price_trend self c m.
Proof.
  intros Hc. unfold get_prices, price_trend. simpl.
  rewrite !filter_app, !filter_cons_False, !filter_nil, !app_nil_r; tauto.
Qed.

(** X3.  The queries neither drop nor repeat a record: [get_prices] holds
    every stored record of the commodity as often as it is stored, and
    [price_trend] every stored record of the commodity and market. *)
Theorem price_queries_Permutation self c m :
  get_prices self c None
    ≡ₚ filter (λ p, lower (MandiPrice.commodity p) = lower c) (_store self)
  ∧ price_trend self c m
    ≡ₚ filter (λ p, lower (MandiPrice.commodity p) = lower c
                     ∧ lower (MandiPrice.market p) = lower m) (_store self).
Proof.
  rewrite get_prices_None, price_trend_sort_by.
  split; apply sort_by_Permutation.
Qed.

(** X4.  Records of one date keep the order in which they were added, in
    the newest-first list of [get_prices] as in the oldest-first list of
    [price_trend]. *)
Theorem price_queries_same_date_order self c m d :
  filter (λ p, MandiPrice.date p = d) (get_prices self c None)
  = filter (λ p, MandiPrice.date p = d)
      (filter (λ p, lower (MandiPrice.commodity p) = lower c) (_store self))
  ∧ filter (λ p, MandiPrice.date p = d) (price_trend self c m)
    = filter (λ p, MandiPrice.date p = d)
        (filter (λ p, lower (MandiPrice.commodity p) = lower c
                      ∧ lower (MandiPrice.market p) = lower m) (_store self)).
Proof.
  unfold get_prices, price_trend.
  split; apply (py_sorted_stable MandiPrice.date String.le).
Qed.

(** X5.  With a non-empty state, [get_prices] returns the list it returns
    without state, cut down to the records of that state: same records,
    same order. *)
Theorem get_prices_state_sublist self c s :
  s ≠ "" →
  get_prices self c (Some s)
  = filter (λ p, lower (MandiPrice.state p) = lower s)
      (get_prices self c None).
Proof.
  intros Hs%str_truthy_true. unfold get_prices. rewrite Hs.
  symmetry. apply (filter_py_sorted MandiPrice.date String.le).
Qed.

(** X6.  When no two stored records of a commodity and market share a
    date, the trend is the newest-first list of the commodity, cut down to
    the market and reversed. *)
Theorem price_trend_reverse_get_prices self c m :
  (∀ p q, p ∈ price_trend self c m → q ∈ price_trend self c m →
          MandiPrice.date p = MandiPrice.date q → p = q) →
  price_trend self c m
  = reverse (filter (λ p, lower (MandiPrice.market p) = lower m)
               (get_prices self c None)).
Proof.
  intros Hdates.
  assert (filter (λ p, lower (MandiPrice.market p) = lower m)
            (get_prices self c None)
          = sort_by MandiPrice.date (flip String.le)
              (filter (λ p, lower (MandiPrice.commodity p) = lower c
                            ∧ lower (MandiPrice.market p) = lower m)
                      (_store self))) as ->.
  { rewrite get_prices_None, filter_sort_by by apply _.
    f_equal. rewrite list_filter_filter.
    apply list_filter_iff. tauto. }
  set (l := filter _ (_store self)) in *.
  assert (price_trend self c m ≡ₚ reverse (sort_by MandiPrice.date
            (flip String.le) l)) as Hperm.
  { rewrite price_trend_sort_by, reverse_Permutation. fold l.
    by rewrite !sort_by_Permutation. }
  apply (StronglySorted_unique_strong (on_key MandiPrice.date String.le));
    [| |..].
  - intros p q Hp Hq Hpq Hqp. apply Hdates; [done| |].
    + by rewrite Hperm.
    + by apply (anti_symm String.le).
  - rewrite price_trend_sort_by. apply StronglySorted_sort_by; apply _.
  - apply Sorted_StronglySorted.
    + intros x y z. unfold on_key. apply transitivity.
    + apply (Sorted_reverse (on_key MandiPrice.date (flip String.le))).
      apply Sorted_sort_by. apply _.
  - exact Hperm.
Qed.
End tracker_more.

(* ===================================================================== *)
(** * Pest database: what is found, and in which order *)
(* ===================================================================== *)

Lemma filter_length_pos {A} (P : A → Prop) `{!∀ x, Decision (P x)}
    (l : list A) :
  0 < length (filter P l) ↔ ∃ x, x ∈ l ∧ P x.
Proof.
  split.
  - destruct (filter P l) as [|x k] eqn:E; simpl; [lia|]. intros _.
    assert (x ∈ filter P l) as Hx by (rewrite E; left).
    apply list_elem_of_filter in Hx as [? ?]. eauto.
  - intros (x & Hx & HP).
    assert (x ∈ filter P l) as Hin by (by apply list_elem_of_filter).
    destruct (filter P l); [by apply elem_of_nil in Hin|simpl; lia].
Qed.

Lemma str_in_empty (t : string) : str_in "" t = true.
Proof. by destruct t. Qed.

(** A list whose elements all carry one key is in order. *)
Lemma Sorted_const_key {A K} (key : A → K) (R : relation K) `{!Reflexive R}
    (k : K) (l : list A) :
  (∀ x, x ∈ l → key x = k) → Sorted (on_key key R) l.
Proof.
  induction l as [|x l IH]; intros Hk; constructor.
  - apply IH. intros y Hy. apply Hk. by right.
  - destruct l as [|y l]; constructor. unfold on_key.
    rewrite (Hk x), (Hk y); [done|right; left|left].
Qed.

Section pest_more.
Context {py_lower : PyLower}.
Implicit Types (self : PestDatabase) (pest p : PestInfo.t).
Implicit Types (symptoms : list string).

(** A record scores above 0 when an observed symptom occurs, lowercased,
    in one of its lowercased symptoms. *)
Lemma distinct_overlap_pos symptoms p :
  0 < distinct_overlap symptoms p
  ↔ ∃ s ps, s ∈ symptoms ∧ ps ∈ PestInfo.symptoms p
            ∧ str_in (lower s) (lower ps) = true.
Proof.
  unfold distinct_overlap. rewrite filter_length_pos. split.
  - intros (x & Hx & (ps & Hps & Hin)%Exists_exists).
    apply elem_of_remove_dups, list_elem_of_fmap in Hx as (s & -> & Hs).
    eauto.
  - intros (s & ps & Hs & Hps & Hin). exists (lower s). split.
    + apply elem_of_remove_dups, list_elem_of_fmap. eauto.
    + apply Exists_exists. eauto.
Qed.

Lemma elem_of_identify_overlap self symptoms p :
  p ∈ identify self symptoms
  ↔ p ∈ _pests self ∧ 0 < distinct_overlap symptoms p.
Proof.
  rewrite identify_sort_by, elem_of_sort_by, list_elem_of_filter. tauto.
Qed.

Lemma distinct_overlap_mono symptoms1 symptoms2 p :
  (∀ x, x ∈ lower <$> symptoms1 → x ∈ lower <$> symptoms2) →
  distinct_overlap symptoms1 p ≤ distinct_overlap symptoms2 p.
Proof.
  intros Hsub. unfold distinct_overlap. apply submseteq_length.
  apply NoDup_submseteq.
  - apply NoDup_filter, NoDup_remove_dups.
  - intros x. rewrite !list_elem_of_filter, !elem_of_remove_dups.
    intros [? ?]. auto.
Qed.

(** X7.  A record is returned by [identify] exactly when it is catalogued
    and some observed symptom occurs, up to case, inside one of its
    catalogued symptoms. *)
Theorem elem_of_identify self symptoms p :
  p ∈ identify self symptoms
  ↔ p ∈ _pests self
    ∧ ∃ s ps, s ∈ symptoms ∧ ps ∈ PestInfo.symptoms p
              ∧ str_in (lower s) (lower ps) = true.
Proof. by rewrite elem_of_identify_overlap, distinct_overlap_pos. Qed.

(** X8.  [identify] depends on the observed symptoms only through the set
    of their lowercased forms: order, repetition and case do not matter. *)
Theorem identify_symptom_set self symptoms1 symptoms2 :
  (∀ x, x ∈ lower <$> symptoms1 ↔ x ∈ lower <$> symptoms2) →
  identify self symptoms1 = identify self symptoms2.
Proof.
  intros Hset. unfold identify.
  assert (lower_set symptoms1 = lower_set symptoms2) as ->; [|done].
  apply set_eq. intros x. unfold lower_set.
  by rewrite !elem_of_list_to_set.
Qed.

(** X9.  Observing more never loses a record: when every observed symptom
    of one list is in a second list, a record found for the first is found
    for the second, with a score at least as high. *)
Theorem identify_more_symptoms self symptoms1 symptoms2 p :
  (∀ s, s ∈ symptoms1 → s ∈ symptoms2) →
  p ∈ identify self symptoms1 →
  p ∈ identify self symptoms2
  ∧ overlap_of (lower_set symptoms1) p ≤ overlap_of (lower_set symptoms2) p.
Proof.
  intros Hsub Hp.
  assert (distinct_overlap symptoms1 p ≤ distinct_overlap symptoms2 p) as Hle.
  { apply distinct_overlap_mono. intros x (s & -> & Hs)%list_elem_of_fmap.
    apply list_elem_of_fmap. eauto. }
  rewrite !overlap_of_distinct. split; [|done].
  apply elem_of_identify_overlap in Hp as [Hin Hpos].
  apply elem_of_identify_overlap. split; [done|lia].
Qed.

(** X10.  [identify] returns catalogued records only, none more often than
    the catalogue holds it, and no record scores more than the number of
    observed symptoms. *)
Theorem identify_within_catalogue self symptoms :
  identify self symptoms ⊆+ _pests self
  ∧ ∀ p, overlap_of (lower_set symptoms) p ≤ length symptoms.
Proof.
  split.
  - rewrite identify_sort_by, sort_by_Permutation.
    apply sublist_submseteq, sublist_filter.
  - intros p. rewrite overlap_of_distinct. unfold distinct_overlap.
    etrans; [apply length_filter|].
    rewrite <-(length_fmap lower symptoms).
    apply submseteq_length, NoDup_submseteq; [apply NoDup_remove_dups|].
    intros x. by rewrite elem_of_remove_dups.
Qed.

(** X11.  The empty text is in every text: when it is its own lowercase
    form, observing just the empty symptom returns every record that has a
    symptom at all, in catalogue order. *)
Theorem identify_empty_symptom self :
  lower "" = "" →
  identify self [""]
  = filter (λ p, PestInfo.symptoms p ≠ []) (_pests self).
Proof.
  intros Hlower.
  assert (∀ p, distinct_overlap [""] p
               = if decide (PestInfo.symptoms p = []) then 0 else 1) as Hscore.
  { intros p. unfold distinct_overlap. simpl. rewrite Hlower. simpl.
    rewrite filter_cons, filter_nil.
    destruct (PestInfo.symptoms p) as [|ps l] eqn:E.
    - rewrite decide_False by (by intros ?%Exists_nil). done.
    - rewrite decide_True; [done|]. left. apply str_in_empty. }
  rewrite identify_sort_by.
  assert (filter (λ p, 0 < distinct_overlap [""] p) (_pests self)
          = filter (λ p, PestInfo.symptoms p ≠ []) (_pests self)) as ->.
  { apply list_filter_iff. intros p. rewrite Hscore.
    case_decide; split; intros; first [lia | done]. }
  apply sort_by_sorted.
  apply (Sorted_const_key _ (flip le) 1).
  intros p [Hne _]%list_elem_of_filter. rewrite Hscore. by case_decide.
Qed.

(** X12.  [by_crop] returns, in catalogue order, exactly the catalogued
    records that list the crop, up to case; so every record is found under
    each crop it lists. *)
Theorem by_crop_lists_crop self crop_name :
  by_crop self crop_name `sublist_of` _pests self
  ∧ (∀ p, p ∈ by_crop self crop_name
          ↔ p ∈ _pests self
            ∧ ∃ c, c ∈ PestInfo.affected_crops p
                   ∧ lower c = lower crop_name)
  ∧ (∀ p c, p ∈ _pests self → c ∈ PestInfo.affected_crops p →
            p ∈ by_crop self c).
Proof.
  unfold by_crop. split_and!.
  - apply sublist_filter.
  - intros p. rewrite list_elem_of_filter, Exists_exists. tauto.
  - intros p c Hp Hc. apply list_elem_of_filter. split; [|done].
    apply Exists_exists. eauto.
Qed.
End pest_more.

(* ===================================================================== *)
(** * Farmer assistant: the default path and the pairing of the answer *)
(* ===================================================================== *)

Lemma keyword_sources_nonempty :
  Forall (λ rule : list string * string * list string, rule.2 ≠ [])
         _KEYWORD_RESPONSES.
Proof. repeat constructor; discriminate. Qed.

(** No keyword of the table is the empty text: nothing occurs in an empty
    query. *)
Lemma keyword_score_empty_query :
  Forall (λ rule : list string * string * list string,
            keyword_score rule.1.1 "" = 0) _KEYWORD_RESPONSES.
Proof. repeat constructor. Qed.

Section respond_more.
Context {py_lower : PyLower}.
Implicit Types (query : FarmerQuery.t).

(** X13.  The answer and the sources of a response come from one place:
    both are the defaults, or both are those of one rule of the table; the
    answer is followed by what the location adds, and the sources are never
    empty. *)
Theorem respond_answer_sources_paired query :
  FarmerResponse.sources (respond query) ≠ []
  ∧ ((FarmerResponse.answer (respond query)
      = default_answer +:+ location_suffix (FarmerQuery.location query)
      ∧ FarmerResponse.sources (respond query) = default_sources)
     ∨ ∃ rule,
         rule ∈ _KEYWORD_RESPONSES
         ∧ FarmerResponse.answer (respond query)
           = rule.1.2 +:+ location_suffix (FarmerQuery.location query)
         ∧ FarmerResponse.sources (respond query) = rule.2).
Proof.
  rewrite respond_best_match. simpl.
  destruct (best_match_cases _KEYWORD_RESPONSES
              (lower (FarmerQuery.query query)))
    as [[-> _]|(i & rule & (Hi & _) & ->)]; simpl.
  - split; [discriminate|]. by left.
  - apply list_elem_of_lookup_2 in Hi. split.
    + by apply (proj1 (Forall_forall _ _) keyword_sources_nonempty).
    + right. by exists rule.
Qed.

(** X14.  A query whose lowercased text is empty matches no rule: the
    response carries the default sources and the default answer, followed
    by what the location adds. *)
Theorem respond_empty_query query :
  lower (FarmerQuery.query query) = "" →
  FarmerResponse.sources (respond query) = default_sources
  ∧ FarmerResponse.answer (respond query)
    = default_answer +:+ location_suffix (FarmerQuery.location query).
Proof.
  intros Hempty. rewrite respond_best_match. simpl. rewrite Hempty.
  destruct (best_match_cases _KEYWORD_RESPONSES "")
    as [[-> _]|(i & rule & (Hi & Hpos & _) & _)]; simpl; [done|].
  apply list_elem_of_lookup_2 in Hi.
  pose proof (proj1 (Forall_forall _ _) keyword_score_empty_query rule Hi).
  simpl in *. lia.
Qed.
End respond_more.

(* ===================================================================== *)
(** * Command line *)
(* ===================================================================== *)

Lemma NoDup_fmap_eq {A B} (f : A → B) (l : list A) (x y : A) :
  NoDup (f <$> l) → x ∈ l → y ∈ l → f x = f y → x = y.
Proof.
  induction l as [|z l IH]; csimpl; [by intros _ ?%elem_of_nil|].
  intros [Hz Hl]%NoDup_cons [->|Hx]%elem_of_cons [->|Hy]%elem_of_cons E;
    [done| | |by apply IH].
  - destruct Hz. rewrite E. by apply list_elem_of_fmap_2.
  - destruct Hz. rewrite <-E. by apply list_elem_of_fmap_2.
Qed.

(** The names of the catalogue are pairwise distinct. *)
Lemma raw_pests_names_NoDup : NoDup (PestInfo.name <$> _RAW_PESTS).
Proof. compute_done. Qed.

Section cli_facts.
Context {py_lower : PyLower}.
Implicit Types (symptom_list : list string) (crop : string).

(** X15.  Whatever is asked, [ask] prints the heading, the answer of
    [respond], the heading of the sources followed by one line for each
    source, of which there is always at least one, and last the
    disclaimer. *)
Theorem ask_messages query location language :
  let response := respond (FarmerQuery.mk query language location) in
  FarmerResponse.sources response ≠ []
  ∧ ask query location language
    = ([nl +:+ "ADVISORY RESPONSE:"; FarmerResponse.answer response;
        nl +:+ "Sources:"]
       ++ ((λ source, "  - " +:+ source) <$> FarmerResponse.sources response)
       ++ [nl +:+ "Verify recommendations with local agricultural experts before application."
           +:+ nl])%list.
Proof.
  intros response. unfold ask. fold response.
  assert (FarmerResponse.sources response ≠ []) as Hne.
  { unfold response. rewrite respond_best_match. simpl.
    destruct (best_match_cases _KEYWORD_RESPONSES (lower query))
      as [[-> _]|(i & rule & (Hi & _) & ->)]; simpl; [discriminate|].
    apply list_elem_of_lookup_2 in Hi.
    by apply (proj1 (Forall_forall _ _) keyword_sources_nonempty). }
  split; [exact Hne|].
  by destruct (FarmerResponse.sources response).
Qed.

Lemma elem_of_by_crop (self : PestDatabase) crop (p : PestInfo.t) :
  p ∈ by_crop self crop
  ↔ p ∈ _pests self
    ∧ ∃ c, c ∈ PestInfo.affected_crops p ∧ lower c = lower crop.
Proof. unfold by_crop. rewrite list_elem_of_filter, Exists_exists. tauto. Qed.

(** A record found by [identify] in the built-in catalogue whose name is
    the name of a candidate is that candidate. *)
Lemma pest_named_candidate symptom_list crop (p : PestInfo.t) :
  p ∈ identify PestDatabase_init symptom_list →
  PestInfo.name p
    ∈ (list_to_set (PestInfo.name <$> by_crop PestDatabase_init crop)
       : gset string) →
  p ∈ by_crop PestDatabase_init crop.
Proof.
  intros [Hp _]%elem_of_identify_overlap
    (q & E & Hq)%elem_of_list_to_set%list_elem_of_fmap.
  assert (q ∈ _RAW_PESTS) as Hq' by (by apply elem_of_by_crop in Hq as [? _]).
  by rewrite (NoDup_fmap_eq PestInfo.name _RAW_PESTS p q
                raw_pests_names_NoDup Hp Hq' E).
Qed.

(** X16.  With a crop given, every record the command [pest] goes on to
    print is a record of the built-in catalogue that lists the crop, up to
    case, whatever the symptoms; the records it prints in full are the
    first five of them, or all when there are fewer. *)
Theorem pest_results_affect_crop symptom_list crop :
  crop ≠ "" →
  Forall (λ p, p ∈ _RAW_PESTS
               ∧ ∃ c, c ∈ PestInfo.affected_crops p ∧ lower c = lower crop)
         (pest_results symptom_list (Some crop))
  ∧ pest_shown symptom_list (Some crop)
    `prefix_of` pest_results symptom_list (Some crop)
  ∧ length (pest_shown symptom_list (Some crop))
    = 5 `min` length (pest_results symptom_list (Some crop)).
Proof.
  intros Hcrop%str_truthy_true.
  split; [|split; [apply prefix_take|apply length_take]].
  unfold pest_results. rewrite Hcrop.
  apply Forall_forall. intros p Hp.
  apply (elem_of_by_crop PestDatabase_init).
  destruct (filter _ (identify PestDatabase_init symptom_list))
    as [|r results] eqn:E; [done|].
  rewrite <-E in Hp. apply list_elem_of_filter in Hp as [Hname Hin].
  by eapply pest_named_candidate.
Qed.

(** X17.  With a crop given, the command [pest] has nothing to print only
    when the catalogue has no record for the crop; and when no record
    matching the symptoms is a record for the crop, it prints all records
    for the crop, in catalogue order. *)
Theorem pest_results_fallback symptom_list crop :
  crop ≠ "" →
  (pest_results symptom_list (Some crop) = []
   ↔ by_crop PestDatabase_init crop = [])
  ∧ ((∀ p, p ∈ identify PestDatabase_init symptom_list →
           p ∉ by_crop PestDatabase_init crop) →
     pest_results symptom_list (Some crop) = by_crop PestDatabase_init crop).
Proof.
  intros Hcrop%str_truthy_true. unfold pest_results. rewrite Hcrop.
  destruct (filter _ (identify PestDatabase_init symptom_list))
    as [|r results] eqn:E; [by split|].
  assert (r ∈ r :: results) as Hr by left.
  rewrite <-E in Hr. apply list_elem_of_filter in Hr as [Hname Hin].
  pose proof (pest_named_candidate _ _ _ Hin Hname) as Hcand.
  split.
  - split; [discriminate|]. intros Hnone. rewrite Hnone in Hcand.
    by apply elem_of_nil in Hcand.
  - intros Hdisjoint. by destruct (Hdisjoint r Hin).
Qed.
End cli_facts.

(* ===================================================================== *)
(** * The further statements on sample data *)
(* ===================================================================== *)

(** Evaluates the list of a membership hypothesis and splits it into one
    case for each member. *)
Ltac members H :=
  match type of H with
  | ?x ∈ ?l => let l' := eval vm_compute in l in change (x ∈ l') in H
  end;
  repeat (apply elem_of_cons in H as [H|H]; [try subst|]);
  [..|by apply elem_of_nil in H].

Lemma add_price_other_commodity_witness :
  ascii_lower (MandiPrice.commodity sample_price) ≠ ascii_lower "Wheat"
  ∧ @get_prices ascii_lower (add_price loaded_tracker sample_price)
      "Wheat" (Some "delhi")
    = @get_prices ascii_lower loaded_tracker "Wheat" (Some "delhi")
  ∧ @price_trend ascii_lower (add_price loaded_tracker sample_price)
      "Wheat" "Azadpur"
    = @price_trend ascii_lower loaded_tracker "Wheat" "Azadpur".
Proof.
  split; [discriminate|].
  apply (add_price_other_commodity (py_lower:=ascii_lower)). discriminate.
Defined.

Lemma get_prices_state_sublist_witness :
  "DELHI" ≠ ""
  ∧ @get_prices ascii_lower loaded_tracker "rice" (Some "DELHI")
    = filter (λ p, ascii_lower (MandiPrice.state p) = ascii_lower "DELHI")
        (@get_prices ascii_lower loaded_tracker "rice" None).
Proof.
  split; [discriminate|].
  apply (get_prices_state_sublist (py_lower:=ascii_lower)). discriminate.
Defined.

Lemma price_trend_reverse_get_prices_witness :
  (∀ p q, p ∈ @price_trend ascii_lower trend_tracker "wheat" "azadpur" →
          q ∈ @price_trend ascii_lower trend_tracker "wheat" "azadpur" →
          MandiPrice.date p = MandiPrice.date q → p = q)
  ∧ @price_trend ascii_lower trend_tracker "wheat" "azadpur"
    = reverse (filter (λ p, ascii_lower (MandiPrice.market p)
                            = ascii_lower "azadpur")
                 (@get_prices ascii_lower trend_tracker "wheat" None)).
Proof.
  assert (∀ p q, p ∈ @price_trend ascii_lower trend_tracker "wheat" "azadpur" →
                 q ∈ @price_trend ascii_lower trend_tracker "wheat" "azadpur" →
                 MandiPrice.date p = MandiPrice.date q → p = q) as Hdates.
  { intros p q Hp Hq Hd. members Hp; members Hq;
      first [reflexivity | discriminate Hd]. }
  split; [exact Hdates|].
  exact (price_trend_reverse_get_prices (py_lower:=ascii_lower)
           trend_tracker "wheat" "azadpur" Hdates).
Defined.

Lemma identify_symptom_set_witness :
  (∀ x, x ∈ ascii_lower <$> ["Yellowing"; "wilting"; "yellowing"]
        ↔ x ∈ ascii_lower <$> ["WILTING"; "yellowing"])
  ∧ @identify ascii_lower PestDatabase_init
      ["Yellowing"; "wilting"; "yellowing"]
    = @identify ascii_lower PestDatabase_init ["WILTING"; "yellowing"].
Proof.
  assert (∀ x, x ∈ ascii_lower <$> ["Yellowing"; "wilting"; "yellowing"]
               ↔ x ∈ ascii_lower <$> ["WILTING"; "yellowing"]) as Hset.
  { intros x. split; intros Hx; members Hx; compute_done. }
  split; [exact Hset|].
  exact (identify_symptom_set (py_lower:=ascii_lower) PestDatabase_init
           _ _ Hset).
Defined.

Lemma identify_more_symptoms_witness :
  (∀ s, s ∈ ["yellowing"] → s ∈ ["hopperburn"; "yellowing"])
  ∧ brown_plant_hopper ∈ @identify ascii_lower PestDatabase_init ["yellowing"]
  ∧ brown_plant_hopper
    ∈ @identify ascii_lower PestDatabase_init ["hopperburn"; "yellowing"]
  ∧ @overlap_of ascii_lower (@lower_set ascii_lower ["yellowing"])
      brown_plant_hopper
    ≤ @overlap_of ascii_lower
        (@lower_set ascii_lower ["hopperburn"; "yellowing"])
        brown_plant_hopper.
Proof.
  assert (∀ s, s ∈ ["yellowing"] → s ∈ ["hopperburn"; "yellowing"]) as Hsub.
  { intros s ->%list_elem_of_singleton. right. left. }
  assert (brown_plant_hopper
          ∈ @identify ascii_lower PestDatabase_init ["yellowing"]) as Hin.
  { vm_compute. left. }
  split; [exact Hsub|]. split; [exact Hin|].
  exact (identify_more_symptoms (py_lower:=ascii_lower) PestDatabase_init
           _ _ _ Hsub Hin).
Defined.

Lemma identify_empty_symptom_witness :
  ascii_lower "" = ""
  ∧ @identify ascii_lower PestDatabase_init [""]
    = filter (λ p, PestInfo.symptoms p ≠ []) (_pests PestDatabase_init).
Proof.
  split; [reflexivity|].
  apply (identify_empty_symptom (py_lower:=ascii_lower)). reflexivity.
Defined.

Lemma by_crop_lists_crop_witness :
  brown_plant_hopper ∈ _pests PestDatabase_init
  ∧ "Rice" ∈ PestInfo.affected_crops brown_plant_hopper
  ∧ brown_plant_hopper ∈ @by_crop ascii_lower PestDatabase_init "Rice".
Proof.
  assert (brown_plant_hopper ∈ _pests PestDatabase_init) as Hp by left.
  assert ("Rice" ∈ PestInfo.affected_crops brown_plant_hopper) as Hc by left.
  split; [exact Hp|]. split; [exact Hc|].
  destruct (by_crop_lists_crop (py_lower:=ascii_lower)
              PestDatabase_init "Rice") as (_ & _ & Hfound).
  exact (Hfound _ _ Hp Hc).
Defined.

Lemma respond_empty_query_witness :
  ascii_lower (FarmerQuery.query empty_query) = ""
  ∧ FarmerResponse.sources (@respond ascii_lower empty_query)
    = default_sources
  ∧ FarmerResponse.answer (@respond ascii_lower empty_query)
    = default_answer +:+ location_suffix None.
Proof.
  split; [reflexivity|].
  apply (respond_empty_query (py_lower:=ascii_lower) empty_query).
  reflexivity.
Defined.

Lemma pest_results_affect_crop_witness :
  "rice" ≠ ""
  ∧ Forall (λ p, p ∈ _RAW_PESTS
                 ∧ ∃ c, c ∈ PestInfo.affected_crops p
                        ∧ ascii_lower c = ascii_lower "rice")
      (@pest_results ascii_lower ["yellowing"] (Some "rice")).
Proof.
  split; [discriminate|].
  apply (pest_results_affect_crop (py_lower:=ascii_lower) ["yellowing"] "rice").
  discriminate.
Defined.

Lemma pest_results_fallback_witness :
  "rice" ≠ ""
  ∧ (∀ p, p ∈ @identify ascii_lower PestDatabase_init ["night feeding"] →
          p ∉ @by_crop ascii_lower PestDatabase_init "rice")
  ∧ @pest_results ascii_lower ["night feeding"] (Some "rice")
    = @by_crop ascii_lower PestDatabase_init "rice"
  ∧ @pest_results ascii_lower ["night feeding"] (Some "rice") ≠ [].
Proof.
  assert (∀ p, p ∈ @identify ascii_lower PestDatabase_init ["night feeding"] →
               p ∉ @by_crop ascii_lower PestDatabase_init "rice") as Hnone.
  { intros p Hp (_ & c & Hc & E)%elem_of_by_crop.
    members Hp; members Hc; vm_compute in E; discriminate E. }
  destruct (pest_results_fallback (py_lower:=ascii_lower)
              ["night feeding"] "rice") as [Hempty Hfall]; [discriminate|].
  split; [discriminate|]. split; [exact Hnone|].
  split; [exact (Hfall Hnone)|].
  intros Hnil%Hempty. vm_compute in Hnil. discriminate Hnil.
Defined.

(* ===================================================================== *)
(** * Matching is containment *)
(* ===================================================================== *)

Lemma prefix_iff (s t : string) :
  String.prefix s t = true ↔ ∃ u, t = s +:+ u.
Proof.
  revert t. induction s as [|c s IH]; intros t.
  - split; [by exists t|]. intros _. by destruct t.
  - destruct t as [|d t]; simpl.
    + split; [done|]. by intros [u Hu].
    + destruct (ascii_dec c d) as [->|Hne].
      * rewrite IH. split; intros [u Hu]; exists u.
        -- by rewrite Hu.
        -- by injection Hu.
      * split; [done|]. intros [u Hu]. injection Hu as -> _. done.
Qed.

(** [str_in s t] holds exactly when [t] is [s] with a text before it and a
    text after it. *)
Lemma str_in_iff (s t : string) :
  str_in s t = true ↔ ∃ a b, t = a +:+ s +:+ b.
Proof.
  induction t as [|c t IH].
  - change (str_in s "") with (String.prefix s ""). rewrite prefix_iff. split.
    + intros [u Hu]. by exists "", u.
    + intros ([|d a] & b & Hab); [by exists b|done].
  - change (str_in s (String c t))
      with (String.prefix s (String c t) || str_in s t).
    rewrite orb_true_iff, prefix_iff, IH. split.
    + intros [[u Hu]|(a & b & ->)].
      * by exists "", u.
      * by exists (String c a), b.
    + intros ([|d a] & b & Hab).
      * left. by exists b.
      * right. injection Hab as -> ->. by exists a, b.
Qed.

(** X18.  A rule scores above 0 for a query exactly when one of its keywords
    stands somewhere in the lowercased query text, be it inside a longer
    word. *)
Theorem rule_score_containment {py_lower : PyLower} (query : FarmerQuery.t)
    (rule : list string * string * list string) :
  0 < rule_score query rule
  ↔ ∃ kw a b, kw ∈ rule.1.1
              ∧ lower (FarmerQuery.query query) = a +:+ kw +:+ b.
Proof.
  unfold rule_score, keyword_score. rewrite filter_length_pos. split.
  - intros (kw & Hkw & (a & b & E)%str_in_iff). by exists kw, a, b.
  - intros (kw & a & b & Hkw & E). exists kw. split; [done|].
    apply str_in_iff. by exists a, b.
Qed.
